(** * document_parser: section segmenter and scanned-document detectors

    A shallow embedding of [word_parser.py], [is_scanned_pdf.py] and
    [is_scanned_table.py], and the properties their specification states.

    Conventions of the embedding.
    - A Python [str] is a [string]; each [ascii] is read as the code point of
      the same number, so the texts covered are those over code points
      0..255.  On that range [isspace], [lower] and [int] below follow
      CPython 3.11, with its default cap of 4300 digits on what [int]
      accepts.
    - A Python [int] is a [Z].
    - A raised exception is a value of [result]; [try ... except Exception]
      is a match on it.
    - The collaborators (python-docx, PyMuPDF, tesseract, json) are not part
      of the repository: a document is given by what they return for it. *)

From Stdlib Require Import List String Ascii ZArith NArith Bool Lia.
From Stdlib Require Import SpecFloat Permutation.
Import ListNotations.

Set Implicit Arguments.

(** ** Exceptions *)

Inductive exn : Type :=
| ValueError
| IndexError
| ZeroDivisionError
| OSError.

Inductive result (A : Type) : Type :=
| Ok (a : A)
| Raise (e : exn).

Arguments Ok {A} a.
Arguments Raise {A} e.

Definition bind {A B : Type} (r : result A) (k : A -> result B) : result B :=
  match r with
  | Ok a => k a
  | Raise e => Raise e
  end.

Notation "x <- r ;; k" := (bind r (fun x => k))
  (at level 61, r at next level, right associativity).
Notation "' p <- r ;; k" := (bind r (fun x => match x with p => k end))
  (at level 61, p pattern, r at next level, right associativity).

(** ** Python string operations used by the sources *)

Module PyStr.

Local Open Scope string_scope.

Definition code (c : ascii) : N := N_of_ascii c.

Definition between (lo hi n : N) : bool := (N.leb lo n) && (N.leb n hi).

(** [str.isspace] on one character, as [str.strip()] uses it. *)
Definition isspace (c : ascii) : bool :=
  let n := code c in
  between 9 13 n || between 28 32 n || N.eqb n 133 || N.eqb n 160.

(** [str.lower] on one character. *)
Definition lower_char (c : ascii) : ascii :=
  let n := code c in
  if between 65 90 n || (between 192 222 n && negb (N.eqb n 215))
  then ascii_of_N (n + 32)
  else c.

Fixpoint lower (s : string) : string :=
  match s with
  | EmptyString => EmptyString
  | String c s' => String (lower_char c) (lower s')
  end.

(** [s.lstrip(...)], with the set of characters to drop as a predicate. *)
Fixpoint lstrip_by (drop : ascii -> bool) (s : string) : string :=
  match s with
  | EmptyString => EmptyString
  | String c s' => if drop c then lstrip_by drop s' else s
  end.

(** [s.rstrip(...)]: a character goes when it is droppable and nothing is
    left behind it. *)
Fixpoint rstrip_by (drop : ascii -> bool) (s : string) : string :=
  match s with
  | EmptyString => EmptyString
  | String c s' =>
      match rstrip_by drop s' with
      | EmptyString => if drop c then EmptyString else String c EmptyString
      | r => String c r
      end
  end.

(** [s.strip()] *)
Definition strip (s : string) : string := rstrip_by isspace (lstrip_by isspace s).

(** [s.rstrip("\n")] *)
Definition rstrip_newline (s : string) : string :=
  rstrip_by (fun c => N.eqb (code c) 10) s.

(** [s.startswith(p)] *)
Definition startswith (s p : string) : bool := String.prefix p s.

(** [bool(s)] *)
Definition truthy (s : string) : bool :=
  match s with
  | EmptyString => false
  | String _ _ => true
  end.

(** [len(s)] *)
Definition len (s : string) : Z := Z.of_nat (String.length s).

(** [sep.join(parts)] with [sep = ""] *)
Definition join_empty (parts : list string) : string :=
  fold_right String.append EmptyString parts.

(** [s.split(sep)]: the separators are found from left to right, without
    overlap.  [skip] counts the characters of a separator just matched that
    are still to be passed over; [cur] is the piece being read. *)
Fixpoint split_go (sep : string) (skip : nat) (cur : string) (s : string)
  {struct s} : list string :=
  match skip, s with
  | S k, String _ s' => split_go sep k cur s'
  | S _, EmptyString => [cur]
  | O, EmptyString => [cur]
  | O, String c s' =>
      if String.prefix sep s
      then cur :: split_go sep (String.length sep - 1) EmptyString s'
      else split_go sep O (cur ++ String c EmptyString) s'
  end.

Definition split (s sep : string) : result (list string) :=
  match sep with
  | EmptyString => Raise ValueError
  | String _ _ => Ok (split_go sep 0 EmptyString s)
  end.

(** [l[i]] for [i >= 0] *)
Definition getitem {A : Type} (l : list A) (i : nat) : result A :=
  match nth_error l i with
  | Some a => Ok a
  | None => Raise IndexError
  end.

(** *** [int(s)]

    Blank characters around the literal are skipped, then an optional sign,
    then decimal digits in which single underscores may separate digits. *)

Definition int_space (c : ascii) : bool :=
  let n := code c in
  between 9 13 n || N.eqb n 32 || N.eqb n 133 || N.eqb n 160.

Definition digit_value (c : ascii) : option Z :=
  let n := code c in
  if between 48 57 n then Some (Z.of_N n - 48)%Z else None.

Definition is_underscore (c : ascii) : bool := N.eqb (code c) 95.

(** The digit loop: [prev_us] says that the previous character was an
    underscore, [seen] that a digit was read.  It returns the value and the
    unread rest. *)
Fixpoint scan_digits (s : string) (prev_us seen : bool) (acc : Z)
  : result (Z * string) :=
  let stop :=
    if prev_us then Raise ValueError
    else if seen then Ok (acc, s) else Raise ValueError in
  match s with
  | EmptyString => stop
  | String c s' =>
      if is_underscore c then
        if prev_us then Raise ValueError else scan_digits s' true seen acc
      else
        match digit_value c with
        | Some d => scan_digits s' false true (10 * acc + d)%Z
        | None => stop
        end
  end.

(** The most digits a literal may have
    ([sys.int_info.default_max_str_digits]); leading zeros count, signs,
    underscores and blanks do not. *)
Definition max_str_digits : nat := 4300.

Fixpoint count_digits (s : string) : nat :=
  match s with
  | EmptyString => O
  | String c s' =>
      match digit_value c with
      | Some _ => S (count_digits s')
      | None => count_digits s'
      end
  end.

Definition int (s : string) : result Z :=
  let s1 := lstrip_by int_space s in
  let '(sign, s2) :=
    match s1 with
    | String "+" r => (1%Z, r)
    | String "-" r => ((-1)%Z, r)
    | _ => (1%Z, s1)
    end in
  match s2 with
  | String "_" _ => Raise ValueError
  | _ =>
      '(v, rest) <- scan_digits s2 false false 0%Z ;;
      match lstrip_by int_space rest with
      | EmptyString =>
          if Nat.ltb max_str_digits (count_digits s2) then Raise ValueError
          else Ok (sign * v)%Z
      | String _ _ => Raise ValueError
      end
  end.

(** [s.endswith(suf)]: some tail of [s] is [suf]. *)
Fixpoint endswith (s suf : string) : bool :=
  if String.eqb s suf then true
  else
    match s with
    | EmptyString => false
    | String _ s' => endswith s' suf
    end.

(** Strings of decimal digits and the number they write. *)
Fixpoint all_digits (s : string) : bool :=
  match s with
  | EmptyString => true
  | String c s' =>
      match digit_value c with
      | Some _ => all_digits s'
      | None => false
      end
  end.

Fixpoint decimal_value_from (acc : Z) (s : string) : Z :=
  match s with
  | EmptyString => acc
  | String c s' => decimal_value_from (10 * acc + (Z.of_N (code c) - 48))%Z s'
  end.

Definition decimal_value (s : string) : Z := decimal_value_from 0%Z s.

(** [c in s] for a character *)
Fixpoint contains_char (c : ascii) (s : string) : bool :=
  match s with
  | EmptyString => false
  | String c' s' => Ascii.eqb c c' || contains_char c s'
  end.

End PyStr.

(** ** word_parser.py *)

Module WordParser.

Local Open Scope string_scope.

(** *** What python-docx exposes of a document *)

(** [paragraph.style]: an object with a [name], which may be absent. *)
Record Style : Type := mkStyle { style_name : option string }.

(** A paragraph: its merged [text], the texts of its [runs], its [style]. *)
Record Paragraph : Type := mkParagraph {
  p_text : string;
  p_runs : list string;
  p_style : option Style
}.

(** A table: for each row, the [text] of each of its cells. *)
Record Table : Type := mkTable { t_rows : list (list string) }.

(** What [iter_block_items] yields, in document order. *)
Inductive Block : Type :=
| BParagraph (p : Paragraph)
| BTable (t : Table).

(** *** The records produced *)

(** A content item: [{"type": "paragraph", "text": .., "style": ..}] or
    [{"type": "table", "rows": ..}]. *)
Inductive Item : Type :=
| ItemParagraph (text : string) (style : option string)
| ItemTable (rows : list (list string)).

Record Section : Type := mkSection {
  title : string;
  level : Z;
  content : list Item
}.

(** The keyword arguments of [parse_docx_sections]. *)
Record Config : Type := mkConfig {
  include_tables : bool;
  include_empty_paragraphs : bool;
  merge_paragraph_runs : bool
}.

Definition default_config : Config :=
  {| include_tables := true;
     include_empty_paragraphs := false;
     merge_paragraph_runs := true |}.

(** *** heading_level *)

Definition heading_prefix : string := "heading ".

Definition heading_level (paragraph : Paragraph) : option Z :=
  match p_style paragraph with
  | None => None
  | Some style =>
      match style_name style with
      | None => None
      | Some nm =>
          if negb (PyStr.truthy nm) then None
          else
            let name := PyStr.lower (PyStr.strip nm) in
            if PyStr.startswith name heading_prefix then
              match (pieces <- PyStr.split name heading_prefix ;;
                     piece <- PyStr.getitem pieces 1 ;;
                     PyStr.int piece) with
              | Ok lvl => Some lvl
              | Raise _ => None
              end
            else None
      end
  end.

(** *** table_to_matrix *)

Definition table_to_matrix (table : Table) : list (list string) :=
  map (fun row => map PyStr.strip row) (t_rows table).

(** *** parse_docx_sections *)

(** The loop's variables: the list [sections] and the section [current].
    ([current] is bound to a fresh section right after each append to
    [sections], and once more only before the function returns, so a section
    already in [sections] is never written again.) *)
Record State : Type := mkState {
  sections : list Section;
  current : Section
}.

Definition preamble_title : string := "(preamble)".

Definition init_state : State :=
  {| sections := [];
     current := {| title := preamble_title; level := 0; content := [] |} |}.

Definition nonempty {A : Type} (l : list A) : bool :=
  match l with
  | [] => false
  | _ :: _ => true
  end.

Definition push_current_if_has_content (st : State) : State :=
  if negb (String.eqb (title (current st)) preamble_title)
     || nonempty (content (current st))
  then {| sections := sections st ++ [current st]; current := current st |}
  else st.

Definition append_content (st : State) (it : Item) : State :=
  {| sections := sections st;
     current := {| title := title (current st);
                   level := level (current st);
                   content := content (current st) ++ [it] |} |}.

(** The text of a paragraph as the loop reads it (lines 99-100). *)
Definition paragraph_text (cfg : Config) (p : Paragraph) : string :=
  let text :=
    if merge_paragraph_runs cfg then p_text p else PyStr.join_empty (p_runs p) in
  PyStr.rstrip_newline text.

(** [block.style.name if block.style else None] *)
Definition item_style (p : Paragraph) : option string :=
  match p_style p with
  | Some style => style_name style
  | None => None
  end.

(** One iteration of the [for] loop. *)
Definition step (cfg : Config) (st : State) (block : Block) : State :=
  match block with
  | BParagraph p =>
      let text := paragraph_text cfg p in
      match heading_level p with
      | Some lvl =>
          let st' := push_current_if_has_content st in
          {| sections := sections st';
             current := {| title := PyStr.strip text; level := lvl; content := [] |} |}
      | None =>
          if negb (include_empty_paragraphs cfg)
             && negb (PyStr.truthy (PyStr.strip text))
          then st
          else append_content st (ItemParagraph (PyStr.strip text) (item_style p))
      end
  | BTable t =>
      if include_tables cfg
      then append_content st (ItemTable (table_to_matrix t))
      else st
  end.

Definition parse_docx_sections (cfg : Config) (doc : list Block) : list Section :=
  sections (push_current_if_has_content (fold_left (step cfg) doc init_state)).

(** *** Notions of the specification *)

(** A heading-styled paragraph: one for which a level is resolved. *)
Definition is_heading (b : Block) : bool :=
  match b with
  | BParagraph p =>
      match heading_level p with
      | Some _ => true
      | None => false
      end
  | BTable _ => false
  end.

(** The content item of a block that is not a heading, or [None] when the
    configuration drops the block. *)
Definition item_of_block (cfg : Config) (b : Block) : option Item :=
  match b with
  | BParagraph p =>
      let t := PyStr.strip (paragraph_text cfg p) in
      if negb (include_empty_paragraphs cfg) && negb (PyStr.truthy t)
      then None
      else Some (ItemParagraph t (item_style p))
  | BTable t =>
      if include_tables cfg then Some (ItemTable (table_to_matrix t)) else None
  end.

(** The non-heading blocks of a stream that survive the filters, in order. *)
Fixpoint filtered_items (cfg : Config) (doc : list Block) : list Item :=
  match doc with
  | [] => []
  | b :: rest =>
      if is_heading b then filtered_items cfg rest
      else
        match item_of_block cfg b with
        | Some it => it :: filtered_items cfg rest
        | None => filtered_items cfg rest
        end
  end.

(** The blocks in front of the first heading-styled paragraph. *)
Fixpoint before_first_heading (doc : list Block) : list Block :=
  match doc with
  | [] => []
  | b :: rest => if is_heading b then [] else b :: before_first_heading rest
  end.

(** The stream from its first heading-styled paragraph on. *)
Fixpoint from_first_heading (doc : list Block) : list Block :=
  match doc with
  | [] => []
  | b :: rest => if is_heading b then doc else from_first_heading rest
  end.

Definition is_preamble (s : Section) : bool :=
  Z.eqb (level s) 0 && String.eqb (title s) preamble_title.

Definition first_is_preamble (out : list Section) : bool :=
  match out with
  | [] => false
  | s :: _ => is_preamble s
  end.

(** A non-heading block survives when the configuration keeps it. *)
Definition survives (cfg : Config) (b : Block) : bool :=
  match item_of_block cfg b with
  | Some _ => true
  | None => false
  end.

(** Everything a state has collected so far, in order. *)
Definition collected (st : State) : list Item :=
  List.concat (map content (sections st)) ++ content (current st).

(** A paragraph with a named style, and the part of a normalised style name
    behind the heading prefix. *)
Definition styled (text nm : string) : Paragraph :=
  {| p_text := text; p_runs := [text];
     p_style := Some {| style_name := Some nm |} |}.

Definition suffix_of_name (nm : string) : string :=
  let name := PyStr.lower (PyStr.strip nm) in
  String.substring (String.length heading_prefix)
                   (String.length name - String.length heading_prefix) name.

(** Convenience constructors for examples. *)
Definition para (text : string) (style : option string) : Block :=
  BParagraph {| p_text := text; p_runs := [text];
                p_style := match style with
                           | Some n => Some {| style_name := Some n |}
                           | None => None
                           end |}.

Definition table (rows : list (list string)) : Block :=
  BTable {| t_rows := rows |}.

(** *** iter_block_items *)

(** A child of the document body: its [tag], and what python-docx reads from
    it when it is wrapped as a [Paragraph] or as a [Table]. *)
Record Element : Type := mkElement {
  tag : string;
  as_paragraph : Paragraph;
  as_table : Table
}.

Definition iter_block_items (body : list Element) : list Block :=
  flat_map
    (fun child =>
       if PyStr.endswith (tag child) "}p" then [BParagraph (as_paragraph child)]
       else if PyStr.endswith (tag child) "}tbl" then [BTable (as_table child)]
       else [])
    body.

(** A tag in Clark notation: [{namespace}local]. *)
Definition clark (namespace local : string) : string :=
  "{" ++ namespace ++ "}" ++ local.

(** *** The segmentation, stated on the stream *)

(** The test of [push_current_if_has_content], on a section. *)
Definition kept (s : Section) : bool :=
  negb (String.eqb (title s) preamble_title) || nonempty (content s).

(** The section a heading opens: its trimmed text, its level, and the
    surviving blocks up to the next heading. *)
Fixpoint heading_sections (cfg : Config) (doc : list Block) : list Section :=
  match doc with
  | [] => []
  | BParagraph p :: rest =>
      match heading_level p with
      | Some lvl =>
          {| title := PyStr.strip (paragraph_text cfg p);
             level := lvl;
             content := filtered_items cfg (before_first_heading rest) |}
          :: heading_sections cfg rest
      | None => heading_sections cfg rest
      end
  | BTable _ :: rest => heading_sections cfg rest
  end.

Definition preamble_section (cfg : Config) (doc : list Block) : Section :=
  {| title := preamble_title;
     level := 0;
     content := filtered_items cfg (before_first_heading doc) |}.

Definition segmentation (cfg : Config) (doc : list Block) : list Section :=
  filter kept (preamble_section cfg doc :: heading_sections cfg doc).

Definition count_headings (doc : list Block) : nat :=
  List.length (filter is_heading doc).

(** All the content items of an output, in order. *)
Definition all_items (out : list Section) : list Item :=
  List.concat (map content out).

Definition is_table_item (it : Item) : bool :=
  match it with
  | ItemTable _ => true
  | ItemParagraph _ _ => false
  end.

(** The text a paragraph carries before line 100 trims its newlines. *)
Definition raw_text (cfg : Config) (p : Paragraph) : string :=
  if merge_paragraph_runs cfg then p_text p else PyStr.join_empty (p_runs p).

Definition with_merge (cfg : Config) (m : bool) : Config :=
  {| include_tables := include_tables cfg;
     include_empty_paragraphs := include_empty_paragraphs cfg;
     merge_paragraph_runs := m |}.

End WordParser.

(** *** The command-line entry point (lines 134-143) *)

Module WordParserMain.

Import WordParser.
Local Open Scope string_scope.

(** How a run of the script ends: it reaches the end of the file, or
    [SystemExit(code)] is raised, or another exception leaves it. *)
Inductive Status : Type :=
| Finished
| SystemExit (code : Z)
| Uncaught (e : exn).

Record Outcome : Type := mkOutcome {
  stdout : list string;
  status : Status
}.

Definition usage : string := "Usage: python docx_sections.py <file.docx>".

Section Main.

(** [Document(path)] followed by [iter_block_items]: the block stream of
    the file at [path], or the exception python-docx raises. *)
Variable Document : string -> result (list Block).

(** [json.dumps(sections, ensure_ascii=False, indent=2)] *)
Variable json_dumps : list Section -> string.

Definition main (argv : list string) : Outcome :=
  if Nat.ltb (List.length argv) 2 then
    {| stdout := [usage]; status := SystemExit 2 |}
  else
    match (path <- PyStr.getitem argv 1 ;;
           doc <- Document path ;;
           Ok (parse_docx_sections default_config doc)) with
    | Ok secs => {| stdout := [json_dumps secs]; status := Finished |}
    | Raise e => {| stdout := []; status := Uncaught e |}
    end.

End Main.

End WordParserMain.

(** ** is_scanned_pdf.py *)

Module IsScannedPdf.

(** A page as PyMuPDF gives it: [page.get_text("text")] and
    [page.get_images(full=True)] (one entry per image, here its number). *)
Record Page : Type := mkPage {
  get_text : string;
  get_images : list Z
}.

(** The loop's variables [total_text_chars] and [has_images]. *)
Record Acc : Type := mkAcc {
  total_text_chars : Z;
  has_images : bool
}.

Definition scan_page (acc : Acc) (page : Page) : Acc :=
  let total := (total_text_chars acc + PyStr.len (PyStr.strip (get_text page)))%Z in
  if negb (has_images acc) then
    match get_images page with
    | _ :: _ => {| total_text_chars := total; has_images := true |}
    | [] => {| total_text_chars := total; has_images := has_images acc |}
    end
  else {| total_text_chars := total; has_images := has_images acc |}.

Definition scan_pages (doc : list Page) : Acc :=
  fold_left scan_page doc {| total_text_chars := 0; has_images := false |}.

Definition is_pdf_scanned (doc : list Page) (min_text_chars : Z)
  (require_images : bool) : bool :=
  let acc := scan_pages doc in
  if (total_text_chars acc >=? min_text_chars)%Z then false
  else if require_images then has_images acc
  else true.

(** The specification's words: the total extracted text length, and whether
    some page holds an image. *)
Definition total_text_length (doc : list Page) : Z :=
  fold_right Z.add 0%Z (map (fun p => PyStr.len (PyStr.strip (get_text p))) doc).

Definition any_page_has_image (doc : list Page) : bool :=
  existsb (fun p => WordParser.nonempty (get_images p)) doc.

End IsScannedPdf.

(** ** is_scanned_table.py *)

Module IsScannedTable.

Local Open Scope Z_scope.

(** Python's [float]: IEEE 754 binary64. *)
Definition float : Type := spec_float.
Definition prec : Z := 53.
Definition emax : Z := 1024.

(** [float(n)] for an [int] *)
Definition float_of_int (n : Z) : float := binary_normalize prec emax n 0 false.

Definition one : float := float_of_int 1.

Definition is_zero (x : float) : bool :=
  match x with
  | S754_zero _ => true
  | _ => false
  end.

(** [a / b] on [int]s.  (The quotient of the two conversions is the value
    Python computes for operands below 2^53, which character counts are.) *)
Definition int_truediv (a b : Z) : result float :=
  if b =? 0 then Raise ZeroDivisionError
  else Ok (SFdiv prec emax (float_of_int a) (float_of_int b)).

(** [x / y] on [float]s *)
Definition float_truediv (x y : float) : result float :=
  if is_zero y then Raise ZeroDivisionError
  else Ok (SFdiv prec emax x y).

(** [x * n] for a [float] and an [int] *)
Definition float_mul_int (x : float) (n : Z) : float :=
  SFmul prec emax x (float_of_int n).

(** [x >= y], [x <= y] and [x > y] on [float]s *)
Definition float_ge (x y : float) : bool :=
  match SFcompare x y with
  | Some Gt | Some Eq => true
  | _ => false
  end.

Definition float_le (x y : float) : bool := SFleb x y.

Definition float_gt (x y : float) : bool := SFltb y x.

(** [min(a, b)]: [b] when [b < a], else [a] *)
Definition py_min (a b : float) : float := if SFltb b a then b else a.

Record OCRTableScanResult : Type := mkResult {
  page_number : Z;
  bbox : float * float * float * float;
  pdf_text_chars : Z;
  ocr_text_chars : Z;
  scanned : bool;
  confidence : float
}.

(** Line 51: the ratio of the decision step. *)
Definition ocr_ratio (ocr_chars pdf_chars : Z) : result float :=
  int_truediv ocr_chars (Z.max 1 pdf_chars).

(** Lines 50-63, from the two character counts. *)
Definition decide (page : Z) (box : float * float * float * float)
  (pdf_chars ocr_chars : Z) (ocr_min_ratio : float) (min_ocr_chars : Z)
  : result OCRTableScanResult :=
  ratio <- ocr_ratio ocr_chars pdf_chars ;;
  let scanned := (ocr_chars >=? min_ocr_chars) && float_ge ratio ocr_min_ratio in
  q <- float_truediv ratio (float_mul_int ocr_min_ratio 2) ;;
  let confidence := py_min one q in
  Ok {| page_number := page;
        bbox := box;
        pdf_text_chars := pdf_chars;
        ocr_text_chars := ocr_chars;
        scanned := scanned;
        confidence := confidence |}.

(** The function, given what the collaborators return for the region:
    [pdf_text] is [page.get_text("text", clip=rect)] and [ocr_text] is
    tesseract's reading of the region rendered at [dpi]. *)
Definition detect_scanned_table_by_ocr (page : Z)
  (box : float * float * float * float) (pdf_text ocr_text : string)
  (ocr_min_ratio : float) (min_ocr_chars : Z) : result OCRTableScanResult :=
  let pdf_chars := PyStr.len (PyStr.strip pdf_text) in
  let ocr_chars := PyStr.len (PyStr.strip ocr_text) in
  decide page box pdf_chars ocr_chars ocr_min_ratio min_ocr_chars.

Definition default_ocr_min_ratio : float := float_of_int 5.
Definition default_min_ocr_chars : Z := 50.

End IsScannedTable.

(** * Properties *)

(** ** The section segmenter *)

Module WordParserSpec.

Import WordParser.
Local Open Scope string_scope.
Local Open Scope list_scope.

(** *** heading_level *)

Lemma heading_level_Heading_3 (text : string) :
  heading_level (styled text "Heading 3") = Some 3%Z.
Proof. reflexivity. Qed.

Lemma heading_level_Heading_no_number (text : string) :
  heading_level (styled text "Heading") = None.
Proof. reflexivity. Qed.

Lemma heading_level_heading_abc (text : string) :
  heading_level (styled text "heading abc") = None.
Proof. reflexivity. Qed.

Lemma heading_level_no_style (p : Paragraph) :
  p_style p = None -> heading_level p = None.
Proof. unfold heading_level. intros ->. reflexivity. Qed.

Lemma heading_level_no_name (p : Paragraph) (st : Style) :
  p_style p = Some st -> style_name st = None -> heading_level p = None.
Proof. unfold heading_level. intros -> ->. reflexivity. Qed.

Lemma heading_level_non_matching (p : Paragraph) (st : Style) (nm : string) :
  p_style p = Some st -> style_name st = Some nm ->
  PyStr.startswith (PyStr.lower (PyStr.strip nm)) heading_prefix = false ->
  heading_level p = None.
Proof.
  unfold heading_level. intros -> -> Hpre.
  destruct (negb (PyStr.truthy nm)); [reflexivity|].
  rewrite Hpre. reflexivity.
Qed.

(** A level comes only from a name with the prefix, and it is the integer
    read from the piece between the prefix and the next occurrence of the
    prefix text. *)
Lemma heading_level_inv (p : Paragraph) (lvl : Z) :
  heading_level p = Some lvl ->
  exists st nm piece,
    p_style p = Some st /\ style_name st = Some nm /\
    PyStr.startswith (PyStr.lower (PyStr.strip nm)) heading_prefix = true /\
    nth_error (PyStr.split_go heading_prefix 0 "" (PyStr.lower (PyStr.strip nm))) 1
      = Some piece /\
    PyStr.int piece = Ok lvl.
Proof.
  unfold heading_level.
  destruct (p_style p) as [st|] eqn:Hst; [|discriminate].
  destruct (style_name st) as [nm|] eqn:Hnm; [|discriminate].
  destruct (negb (PyStr.truthy nm)); [discriminate|].
  destruct (PyStr.startswith _ _) eqn:Hpre; [|discriminate].
  cbn [PyStr.split heading_prefix bind].
  unfold PyStr.getitem.
  destruct (nth_error _ 1) as [piece|] eqn:Hnth; cbn [bind]; [|discriminate].
  destruct (PyStr.int piece) as [v|e] eqn:Hint; [|discriminate].
  intros [= <-]. exists st, nm, piece. repeat split; assumption || reflexivity.
Qed.

(** A paragraph for which no level is resolved is ordinary content: it opens
    no section, and it is appended to the current one unless the
    empty-paragraph filter drops it. *)
Lemma non_heading_paragraph_is_content (cfg : Config) (st : State) (p : Paragraph) :
  heading_level p = None ->
  step cfg st (BParagraph p) =
    match item_of_block cfg (BParagraph p) with
    | Some it => append_content st it
    | None => st
    end.
Proof.
  intros H. unfold step, item_of_block. rewrite H.
  destruct (negb (include_empty_paragraphs cfg) && _); reflexivity.
Qed.

(** *** The loop collects the filtered blocks in order *)

Section Segmentation.

Variable cfg : Config.

Lemma filtered_items_app (l1 l2 : list Block) :
  filtered_items cfg (l1 ++ l2) = filtered_items cfg l1 ++ filtered_items cfg l2.
Proof.
  induction l1 as [|b l1 IH]; simpl; [reflexivity|].
  destruct (is_heading b); [exact IH|].
  destruct (item_of_block cfg b); simpl; now rewrite IH.
Qed.

Lemma push_collected (st : State) :
  List.concat (map content (sections (push_current_if_has_content st)))
  = collected st.
Proof.
  unfold push_current_if_has_content, collected.
  destruct (negb (String.eqb (title (current st)) preamble_title)) eqn:Ht;
    cbn [orb sections].
  - rewrite map_app, concat_app. simpl. now rewrite app_nil_r.
  - destruct (content (current st)) as [|it its] eqn:Hc; cbn [nonempty sections].
    + now rewrite app_nil_r.
    + rewrite map_app, concat_app. simpl. now rewrite Hc, app_nil_r.
Qed.

Lemma step_heading (st : State) (p : Paragraph) (lvl : Z) :
  heading_level p = Some lvl ->
  step cfg st (BParagraph p) =
    {| sections := sections (push_current_if_has_content st);
       current := {| title := PyStr.strip (paragraph_text cfg p);
                     level := lvl; content := [] |} |}.
Proof. intros H. unfold step. now rewrite H. Qed.

Lemma step_non_heading (st : State) (b : Block) :
  is_heading b = false ->
  step cfg st b =
    match item_of_block cfg b with
    | Some it => append_content st it
    | None => st
    end.
Proof.
  destruct b as [p|t]; simpl.
  - destruct (heading_level p) eqn:H; [discriminate|]. intros _.
    destruct (negb (include_empty_paragraphs cfg) && _); reflexivity.
  - intros _. destruct (include_tables cfg); reflexivity.
Qed.

Lemma step_collected (st : State) (b : Block) :
  collected (step cfg st b) = collected st ++ filtered_items cfg [b].
Proof.
  cbn [filtered_items].
  destruct (is_heading b) eqn:Hb.
  - destruct b as [p|t]; [|discriminate]. simpl in Hb.
    destruct (heading_level p) as [lvl|] eqn:Hl; [|discriminate].
    rewrite (step_heading st p Hl). unfold collected at 1. cbn [sections current content].
    rewrite push_collected. now rewrite !app_nil_r.
  - rewrite (step_non_heading st b Hb).
    destruct (item_of_block cfg b) as [it|].
    + unfold collected, append_content. cbn [sections current content].
      now rewrite app_assoc.
    + now rewrite app_nil_r.
Qed.

Lemma fold_collected (doc : list Block) : forall st : State,
  collected (fold_left (step cfg) doc st) = collected st ++ filtered_items cfg doc.
Proof.
  induction doc as [|b doc IH]; intros st.
  - simpl. now rewrite app_nil_r.
  - cbn [fold_left]. rewrite IH, step_collected, <- app_assoc.
    f_equal. exact (eq_sym (filtered_items_app [b] doc)).
Qed.

(** *** Streams without headings *)

Lemma fold_no_heading (doc : list Block) : forall st : State,
  (forall b, In b doc -> is_heading b = false) ->
  fold_left (step cfg) doc st =
    {| sections := sections st;
       current := {| title := title (current st);
                     level := level (current st);
                     content := content (current st) ++ filtered_items cfg doc |} |}.
Proof.
  induction doc as [|b doc IH]; intros st Hdoc.
  - destruct st as [secs [t l c]]. simpl. now rewrite app_nil_r.
  - assert (Hb : is_heading b = false) by (apply Hdoc; now left).
    cbn [fold_left filtered_items]. rewrite Hb.
    rewrite IH by (intros b' Hb'; apply Hdoc; now right).
    rewrite (step_non_heading st b Hb).
    destruct (item_of_block cfg b) as [it|]; [|reflexivity].
    unfold append_content. cbn [sections current title level content].
    now rewrite <- app_assoc.
Qed.

Lemma before_first_heading_no_heading (doc : list Block) :
  forall b, In b (before_first_heading doc) -> is_heading b = false.
Proof.
  induction doc as [|b0 doc IH]; simpl; [contradiction|].
  destruct (is_heading b0) eqn:H0; simpl; [contradiction|].
  intros b [<-|Hb]; auto.
Qed.

Lemma split_at_first_heading (doc : list Block) :
  doc = before_first_heading doc ++ from_first_heading doc.
Proof.
  induction doc as [|b doc IH]; simpl; [reflexivity|].
  destruct (is_heading b); simpl; [reflexivity|]. now rewrite <- IH.
Qed.

Lemma from_first_heading_cases (doc : list Block) :
  from_first_heading doc = [] \/
  exists p lvl rest,
    from_first_heading doc = BParagraph p :: rest /\ heading_level p = Some lvl.
Proof.
  induction doc as [|b doc IH]; simpl; [now left|].
  destruct (is_heading b) eqn:Hb; [|exact IH].
  right. destruct b as [p|t]; [|discriminate]. simpl in Hb.
  destruct (heading_level p) as [lvl|] eqn:Hl; [|discriminate].
  now exists p, lvl, doc.
Qed.

Lemma filtered_nil_iff_no_survivor (l : list Block) :
  (forall b, In b l -> is_heading b = false) ->
  filtered_items cfg l = [] <-> existsb (survives cfg) l = false.
Proof.
  induction l as [|b l IH]; intros Hl; simpl; [tauto|].
  rewrite (Hl b (or_introl eq_refl)). unfold survives at 1.
  destruct (item_of_block cfg b); simpl.
  - split; discriminate.
  - apply IH. intros b' Hb'. apply Hl. now right.
Qed.

(** The loop over a stream is the loop over the part from the first
    heading on, started with the preamble that the part before it fills. *)
Lemma fold_from_first_heading (doc : list Block) :
  fold_left (step cfg) doc init_state =
  fold_left (step cfg) (from_first_heading doc)
    {| sections := [];
       current := {| title := preamble_title; level := 0;
                     content := filtered_items cfg (before_first_heading doc) |} |}.
Proof.
  transitivity (fold_left (step cfg)
                  (before_first_heading doc ++ from_first_heading doc) init_state).
  - now rewrite <- split_at_first_heading.
  - rewrite fold_left_app.
    now rewrite (fold_no_heading _ init_state (before_first_heading_no_heading doc)).
Qed.

(** *** Sections opened by headings *)

(** Once the current section has a level other than 0, and no later
    heading resolves to level 0, every section appended from then on has a
    level other than 0. *)
Lemma later_sections_levels (doc : list Block) : forall st : State,
  (forall p, In (BParagraph p) doc -> heading_level p <> Some 0%Z) ->
  level (current st) <> 0%Z ->
  exists extra,
    sections (push_current_if_has_content (fold_left (step cfg) doc st))
      = sections st ++ extra /\
    Forall (fun s => level s <> 0%Z) extra.
Proof.
  induction doc as [|b doc IH]; intros st Hdoc Hcur.
  - simpl. unfold push_current_if_has_content.
    destruct (_ || _).
    + exists [current st]. split; [reflexivity|]. now constructor.
    + exists []. split; [now rewrite app_nil_r|constructor].
  - cbn [fold_left].
    assert (Hdoc' : forall p, In (BParagraph p) doc -> heading_level p <> Some 0%Z)
      by (intros p Hp; apply Hdoc; now right).
    destruct (is_heading b) eqn:Hb.
    + destruct b as [p|t]; [|discriminate]. simpl in Hb.
      destruct (heading_level p) as [lvl|] eqn:Hl; [|discriminate].
      assert (Hlvl : lvl <> 0%Z).
      { intros ->. exact (Hdoc p (or_introl eq_refl) Hl). }
      rewrite (step_heading st p Hl).
      destruct (IH {| sections := sections (push_current_if_has_content st);
                      current := {| title := PyStr.strip (paragraph_text cfg p);
                                    level := lvl; content := [] |} |}
                   Hdoc' Hlvl) as (extra & Hex & Hall).
      cbn [sections current level] in Hex. rewrite Hex.
      unfold push_current_if_has_content. destruct (_ || _); cbn [sections].
      * exists (current st :: extra). split; [now rewrite <- app_assoc|].
        now constructor.
      * now exists extra.
    + rewrite (step_non_heading st b Hb).
      destruct (item_of_block cfg b) as [it|].
      * destruct (IH (append_content st it) Hdoc' Hcur) as (extra & Hex & Hall).
        now exists extra.
      * exact (IH st Hdoc' Hcur).
Qed.

End Segmentation.

(** What the filters drop: a table exactly when [include_tables] is off, a
    paragraph exactly when [include_empty_paragraphs] is off and its trimmed
    text is empty. *)
Lemma item_of_block_dropped (cfg : Config) (b : Block) :
  item_of_block cfg b = None <->
  match b with
  | BTable _ => include_tables cfg = false
  | BParagraph p =>
      include_empty_paragraphs cfg = false /\
      PyStr.strip (paragraph_text cfg p) = ""
  end.
Proof.
  destruct b as [p|t]; simpl.
  - destruct (include_empty_paragraphs cfg);
      destruct (PyStr.strip (paragraph_text cfg p)); simpl;
      intuition discriminate.
  - destruct (include_tables cfg); intuition discriminate.
Qed.

(** C1. For every block stream and every configuration, the contents of the
    returned sections, concatenated in output order, are exactly the
    non-heading blocks of the stream that survive the filters, in their
    original order: nothing is reordered, repeated or lost. *)
Theorem sections_concat_is_filtered_stream (cfg : Config) (doc : list Block) :
  List.concat (map content (parse_docx_sections cfg doc)) = filtered_items cfg doc.
Proof.
  unfold parse_docx_sections.
  rewrite push_collected, fold_collected. reflexivity.
Qed.

(** C2, as stated, fails: with the default configuration an empty paragraph
    in front of the first heading is a non-heading block preceding it, yet it
    is filtered out and no preamble section is emitted. *)
Lemma preamble_needs_surviving_block :
  ~ (forall cfg doc,
       first_is_preamble (parse_docx_sections cfg doc) = true <->
       nonempty (before_first_heading doc) = true).
Proof.
  intros H.
  destruct (H default_config [para "" None; para "T" (Some "Heading 1")]) as [_ Hback].
  specialize (Hback eq_refl). vm_compute in Hback. discriminate Hback.
Qed.

(** C2, amended.  When no heading-styled paragraph resolves to level 0: the
    first section of the output has level 0 and title "(preamble)" if and
    only if at least one non-heading block that survives the filters
    precedes the first heading-styled paragraph; otherwise no level-0 section
    is emitted. *)
Theorem preamble_iff_surviving_block (cfg : Config) (doc : list Block) :
  (forall p, In (BParagraph p) doc -> heading_level p <> Some 0%Z) ->
  (first_is_preamble (parse_docx_sections cfg doc) = true <->
   existsb (survives cfg) (before_first_heading doc) = true) /\
  (existsb (survives cfg) (before_first_heading doc) = false ->
   forall s, In s (parse_docx_sections cfg doc) -> level s <> 0%Z).
Proof.
  intros Hdoc.
  pose proof (before_first_heading_no_heading doc) as Hpre.
  pose proof (filtered_nil_iff_no_survivor cfg _ Hpre) as Hsurv.
  unfold parse_docx_sections.
  rewrite fold_from_first_heading.
  set (items := filtered_items cfg (before_first_heading doc)) in *.
  set (st1 := {| sections := [];
                 current := {| title := preamble_title; level := 0;
                               content := items |} |}).
  assert (Hout : exists extra,
             sections (push_current_if_has_content
                         (fold_left (step cfg) (from_first_heading doc) st1))
             = (if nonempty items then [current st1] else []) ++ extra /\
             Forall (fun s => level s <> 0%Z) extra).
  { destruct (from_first_heading_cases doc) as [Hnil|(p & lvl & rest & Hfrom & Hl)].
    - rewrite Hnil. exists []. split; [|constructor].
      rewrite app_nil_r. simpl. unfold push_current_if_has_content. simpl.
      destruct (nonempty items); reflexivity.
    - assert (Hin : forall b, In b (from_first_heading doc) -> In b doc).
      { intros b Hb. rewrite (split_at_first_heading doc).
        apply in_or_app. now right. }
      rewrite Hfrom in *. cbn [fold_left]. rewrite (step_heading cfg st1 p Hl).
      destruct (later_sections_levels cfg rest
                  {| sections := sections (push_current_if_has_content st1);
                     current := {| title := PyStr.strip (paragraph_text cfg p);
                                   level := lvl; content := [] |} |})
        as (extra & Hex & Hall).
      + intros q Hq. apply Hdoc, Hin. now right.
      + simpl. intros ->. apply (Hdoc p); [apply Hin; now left|exact Hl].
      + exists extra. split; [|exact Hall]. rewrite Hex. f_equal.
        unfold push_current_if_has_content. simpl.
        destruct (nonempty items); reflexivity. }
  destruct Hout as (extra & -> & Hall).
  destruct items as [|it its] eqn:Hitems; cbn [nonempty app].
  - assert (Hnone : existsb (survives cfg) (before_first_heading doc) = false)
      by (apply Hsurv; reflexivity).
    rewrite Hnone. split.
    + split; [|discriminate].
      destruct extra as [|s extra]; [discriminate|].
      inversion Hall as [|? ? Hs _]; subst. unfold first_is_preamble, is_preamble.
      destruct (Z.eqb_spec (level s) 0); [contradiction|discriminate].
    + intros _ s Hs. rewrite Forall_forall in Hall. now apply Hall.
  - assert (Hsome : existsb (survives cfg) (before_first_heading doc) = true).
    { apply not_false_is_true. intros E. apply Hsurv in E. discriminate E. }
    rewrite Hsome. split; [|discriminate].
    split; reflexivity.
Qed.

Lemma preamble_iff_surviving_block_witness :
  let doc := [para "" None; para "Hello" None; para "T" (Some "Heading 1");
              para "x" None] in
  (first_is_preamble (parse_docx_sections default_config doc) = true <->
   existsb (survives default_config) (before_first_heading doc) = true) /\
  (existsb (survives default_config) (before_first_heading doc) = false ->
   forall s, In s (parse_docx_sections default_config doc) -> level s <> 0%Z).
Proof.
  intros doc. apply (preamble_iff_surviving_block default_config doc).
  intros p Hp. simpl in Hp.
  destruct Hp as [Hp|[Hp|[Hp|[Hp|[]]]]]; injection Hp as <-;
    vm_compute; discriminate.
Defined.

(** Why the amended C2 sets level-0 headings aside: a paragraph styled
    "Heading 0" whose text is "(preamble)" yields a first section that looks
    like the preamble although nothing precedes the first heading. *)
Lemma heading_zero_looks_like_preamble :
  let doc := [para "(preamble)" (Some "Heading 0"); para "x" None] in
  before_first_heading doc = [] /\
  first_is_preamble (parse_docx_sections default_config doc) = true.
Proof. split; reflexivity. Qed.

(** C3: the code lets a negative level through.  A paragraph styled
    "Heading -1" opens a section of level -1. *)
Theorem negative_level_emitted :
  parse_docx_sections default_config [para "T" (Some "Heading -1")]
  = [{| title := "T"; level := (-1)%Z; content := [] |}].
Proof. reflexivity. Qed.

(** C4: the code resolves a level for a name whose part behind the heading
    prefix is not an integer.  For the style name "Heading 1 heading 2" the
    name has the prefix, what follows it ("1 heading 2") is rejected by
    [int], and still [heading_level] returns 1, so the paragraph opens a
    section. *)
Theorem level_from_non_integer_suffix :
  let nm := "Heading 1 heading 2" in
  PyStr.startswith (PyStr.lower (PyStr.strip nm)) heading_prefix = true /\
  suffix_of_name nm = "1 heading 2" /\
  PyStr.int (suffix_of_name nm) = Raise ValueError /\
  heading_level (styled "T" nm) = Some 1%Z /\
  parse_docx_sections default_config [BParagraph (styled "T" nm)]
  = [{| title := "T"; level := 1; content := [] |}].
Proof. repeat split. Qed.

(** C5. A stream without heading-styled paragraphs yields exactly one
    section, titled "(preamble)" at level 0 and holding all the blocks that
    survive the filters, or no section at all when none survives. *)
Theorem no_heading_single_preamble (cfg : Config) (doc : list Block) :
  (forall b, In b doc -> is_heading b = false) ->
  parse_docx_sections cfg doc =
    match filtered_items cfg doc with
    | [] => []
    | _ :: _ => [{| title := "(preamble)"; level := 0;
                    content := filtered_items cfg doc |}]
    end.
Proof.
  intros Hdoc. unfold parse_docx_sections.
  rewrite (fold_no_heading cfg doc init_state Hdoc).
  cbn [init_state sections current title level content app].
  unfold push_current_if_has_content. cbn [current sections title content].
  destruct (filtered_items cfg doc); reflexivity.
Qed.

Lemma no_heading_single_preamble_witness :
  let doc := [para "Hello" None; para "  " (Some "Normal"); table [["a"; " b "]]] in
  (forall b, In b doc -> is_heading b = false) /\
  parse_docx_sections default_config doc
  = [{| title := "(preamble)"; level := 0;
        content := [ItemParagraph "Hello" None; ItemTable [["a"; "b"]]] |}].
Proof.
  intros doc.
  assert (H : forall b, In b doc -> is_heading b = false).
  { intros b Hb. simpl in Hb.
    destruct Hb as [<-|[<-|[<-|[]]]]; reflexivity. }
  split; [exact H|].
  exact (no_heading_single_preamble default_config doc H).
Defined.

(** C6. The scenario of the specification: a paragraph, a "Heading 1"
    paragraph, a paragraph and a table, under the default configuration. *)
Theorem scenario_preamble_then_title_a :
  parse_docx_sections default_config
    [para "Hello" None; para "Title A" (Some "Heading 1"); para "body" None;
     table [["a"; "b"]]]
  = [{| title := "(preamble)"; level := 0;
        content := [ItemParagraph "Hello" None] |};
     {| title := "Title A"; level := 1;
        content := [ItemParagraph "body" None; ItemTable [["a"; "b"]]] |}].
Proof. reflexivity. Qed.

End WordParserSpec.

(** ** The command-line entry point *)

Module WordParserMainSpec.

Import WordParser WordParserMain.
Local Open Scope string_scope.
Local Open Scope list_scope.

Section MainSpec.

Variable Document : string -> result (list Block).
Variable json_dumps : list Section -> string.

Lemma main_without_path (argv : list string) :
  List.length argv < 2 ->
  main Document json_dumps argv = {| stdout := [usage]; status := SystemExit 2 |}.
Proof.
  intros Hlen. unfold main.
  destruct (Nat.ltb_spec (List.length argv) 2) as [_|Hge]; [reflexivity|lia].
Qed.

Lemma main_with_path (argv : list string) (path : string) :
  nth_error argv 1 = Some path ->
  main Document json_dumps argv =
    match Document path with
    | Ok doc => {| stdout := [json_dumps (parse_docx_sections default_config doc)];
                   status := Finished |}
    | Raise e => {| stdout := []; status := Uncaught e |}
    end.
Proof.
  intros Hpath. unfold main.
  assert (Hlen : 1 < List.length argv)
    by (apply nth_error_Some; rewrite Hpath; discriminate).
  destruct (Nat.ltb_spec (List.length argv) 2) as [Hlt|_]; [lia|].
  unfold PyStr.getitem. rewrite Hpath. cbn [bind].
  destruct (Document path); reflexivity.
Qed.

Lemma path_present (argv : list string) :
  2 <= List.length argv -> exists path, nth_error argv 1 = Some path.
Proof.
  intros Hlen. destruct (nth_error argv 1) as [path|] eqn:E.
  - now exists path.
  - apply nth_error_None in E. lia.
Qed.

End MainSpec.

(** C9. Without a file-path argument the entry point prints the usage
    message and exits with status 2.  With one it prints the serialised
    sections of that file.  Status 2 is the only exit code it raises, and it
    reads nothing of the command line but the path: arguments after it change
    nothing. *)
Theorem main_usage_or_sections
  (Document : string -> result (list Block))
  (json_dumps : list Section -> string) (argv : list string) :
  (List.length argv < 2 ->
   main Document json_dumps argv = {| stdout := [usage]; status := SystemExit 2 |}) /\
  (forall path doc,
     nth_error argv 1 = Some path -> Document path = Ok doc ->
     main Document json_dumps argv =
       {| stdout := [json_dumps (parse_docx_sections default_config doc)];
          status := Finished |}) /\
  (forall code,
     status (main Document json_dumps argv) = SystemExit code ->
     code = 2%Z /\ List.length argv < 2) /\
  (forall argv',
     2 <= List.length argv -> nth_error argv' 1 = nth_error argv 1 ->
     main Document json_dumps argv' = main Document json_dumps argv).
Proof.
  split; [|split; [|split]].
  - apply main_without_path.
  - intros path doc Hpath Hdoc.
    rewrite (main_with_path Document json_dumps argv Hpath), Hdoc. reflexivity.
  - intros code Hst.
    destruct (Nat.lt_ge_cases (List.length argv) 2) as [Hlt|Hge].
    + rewrite (main_without_path Document json_dumps argv Hlt) in Hst.
      injection Hst as <-. now split.
    + destruct (path_present argv Hge) as [path Hpath].
      rewrite (main_with_path Document json_dumps argv Hpath) in Hst.
      destruct (Document path); discriminate Hst.
  - intros argv' Hge Hsame.
    destruct (path_present argv Hge) as [path Hpath].
    rewrite Hpath in Hsame.
    rewrite (main_with_path Document json_dumps argv Hpath).
    now rewrite (main_with_path Document json_dumps argv' Hsame).
Qed.

Lemma main_usage_or_sections_witness :
  let Document := fun _ : string => Ok [para "Hello" None] in
  let json_dumps := fun secs : list Section =>
                      match secs with [] => "[]" | _ :: _ => "[...]" end in
  main Document json_dumps ["docx_sections.py"]
    = {| stdout := [usage]; status := SystemExit 2 |} /\
  main Document json_dumps ["docx_sections.py"; "a.docx"]
    = {| stdout := ["[...]"]; status := Finished |} /\
  main Document json_dumps ["docx_sections.py"; "a.docx"; "--flag"]
    = main Document json_dumps ["docx_sections.py"; "a.docx"].
Proof.
  intros Document json_dumps.
  split; [|split].
  - apply (proj1 (main_usage_or_sections Document json_dumps ["docx_sections.py"])).
    simpl. lia.
  - apply (proj1 (proj2 (main_usage_or_sections Document json_dumps
                           ["docx_sections.py"; "a.docx"]))
             "a.docx" [para "Hello" None]); reflexivity.
  - apply (proj2 (proj2 (proj2 (main_usage_or_sections Document json_dumps
                                  ["docx_sections.py"; "a.docx"])))).
    + simpl. lia.
    + reflexivity.
Defined.

End WordParserMainSpec.

(** ** The scanned-PDF detector *)

Module IsScannedPdfSpec.

Import IsScannedPdf.
Local Open Scope Z_scope.

Lemma scan_page_eq (acc : Acc) (page : Page) :
  scan_page acc page =
    {| total_text_chars :=
         total_text_chars acc + PyStr.len (PyStr.strip (get_text page));
       has_images := has_images acc || WordParser.nonempty (get_images page) |}.
Proof.
  unfold scan_page.
  case_eq (has_images acc); intros Hacc; simpl.
  - reflexivity.
  - case_eq (get_images page); intros; reflexivity.
Qed.

Lemma scan_fold (doc : list Page) : forall acc : Acc,
  fold_left scan_page doc acc =
    {| total_text_chars := total_text_chars acc + total_text_length doc;
       has_images := has_images acc || any_page_has_image doc |}.
Proof.
  induction doc as [|page doc IH]; intros [total imgs]; simpl.
  - now rewrite Z.add_0_r, orb_false_r.
  - rewrite IH, scan_page_eq. simpl. f_equal.
    + apply eq_sym, Z.add_assoc.
    + apply eq_sym, orb_assoc.
Qed.

Lemma scan_pages_eq (doc : list Page) :
  scan_pages doc =
    {| total_text_chars := total_text_length doc;
       has_images := any_page_has_image doc |}.
Proof. unfold scan_pages. now rewrite scan_fold. Qed.

(** C8. When the total length of the stripped page texts reaches
    [min_text_chars] the result is false whatever the images; below it, with
    [require_images] on, the result says whether some page holds an image. *)
Theorem is_pdf_scanned_thresholds (doc : list Page) (min_text_chars : Z)
  (require_images : bool) :
  (total_text_length doc >= min_text_chars ->
   is_pdf_scanned doc min_text_chars require_images = false) /\
  (total_text_length doc < min_text_chars ->
   is_pdf_scanned doc min_text_chars true = any_page_has_image doc).
Proof.
  unfold is_pdf_scanned. rewrite scan_pages_eq. simpl.
  split; intros Hcmp.
  - apply Z.geb_ge in Hcmp. now rewrite Hcmp.
  - replace (total_text_length doc >=? min_text_chars) with false; [reflexivity|].
    symmetry. rewrite Z.geb_leb. apply Z.leb_gt. exact Hcmp.
Qed.

Lemma is_pdf_scanned_thresholds_witness :
  let text_doc := [{| get_text := "  some extracted text, long enough  ";
                      get_images := [7%Z] |}] in
  let scan_doc := [{| get_text := " "; get_images := [] |};
                   {| get_text := "p. 2"; get_images := [12%Z] |}] in
  is_pdf_scanned text_doc 20 true = false /\
  is_pdf_scanned scan_doc 20 true = any_page_has_image scan_doc.
Proof.
  intros text_doc scan_doc. split.
  - apply (is_pdf_scanned_thresholds text_doc 20 true). vm_compute. discriminate.
  - apply (is_pdf_scanned_thresholds scan_doc 20 true). vm_compute. reflexivity.
Defined.

End IsScannedPdfSpec.

(** ** The scanned-table detector *)

Module IsScannedTableSpec.

Import IsScannedTable.
Local Open Scope Z_scope.

(** *** Comparisons of floats *)

Lemma SFcompare_Lt_Gt (x y : float) :
  SFcompare x y = Some Lt -> SFcompare y x = Some Gt.
Proof.
  destruct x as [sx|sx| |sx mx ex], y as [sy|sy| |sy my ey]; simpl;
    try discriminate; try (destruct sx; discriminate || reflexivity);
    try (destruct sy; discriminate || reflexivity).
  - destruct sx, sy; discriminate || reflexivity.
  - destruct sx, sy; try discriminate; try reflexivity.
    + rewrite (Z.compare_antisym ex ey).
      destruct (ex ?= ey); simpl; try discriminate; try reflexivity.
      pose proof (Pos.compare_cont_antisym mx my Eq) as Hanti.
      simpl in Hanti. rewrite <- Hanti.
      destruct (Pos.compare_cont Eq mx my); simpl; discriminate || reflexivity.
    + rewrite (Z.compare_antisym ex ey).
      destruct (ex ?= ey); simpl; try discriminate; try reflexivity.
      pose proof (Pos.compare_cont_antisym mx my Eq) as Hanti.
      simpl in Hanti. rewrite <- Hanti.
      destruct (Pos.compare_cont Eq mx my); simpl; discriminate || reflexivity.
Qed.

Lemma py_min_one_bounded (q : float) :
  float_le (py_min one q) one = true /\ float_gt (py_min one q) one = false.
Proof.
  unfold py_min, float_le, float_gt, SFleb, SFltb.
  destruct (SFcompare q one) as [[| |]|] eqn:Hq; try (split; reflexivity).
  rewrite Hq, (SFcompare_Lt_Gt q one Hq). split; reflexivity.
Qed.

(** *** The decision step *)

Lemma max_one_nonzero (pdf_chars : Z) : (Z.max 1 pdf_chars =? 0) = false.
Proof. apply Z.eqb_neq. lia. Qed.

Lemma ocr_ratio_eq (ocr_chars pdf_chars : Z) :
  ocr_ratio ocr_chars pdf_chars =
    Ok (SFdiv prec emax (float_of_int ocr_chars) (float_of_int (Z.max 1 pdf_chars))).
Proof. unfold ocr_ratio, int_truediv. now rewrite max_one_nonzero. Qed.

Lemma decide_returns (page : Z) (box : float * float * float * float)
  (pdf_chars ocr_chars : Z) (ocr_min_ratio : float) (min_ocr_chars : Z) :
  is_zero (float_mul_int ocr_min_ratio 2) = false ->
  exists r, decide page box pdf_chars ocr_chars ocr_min_ratio min_ocr_chars = Ok r.
Proof.
  intros Hnz. unfold decide, float_truediv.
  rewrite ocr_ratio_eq, Hnz. cbn [bind]. eexists. reflexivity.
Qed.

Lemma decide_inv (page : Z) (box : float * float * float * float)
  (pdf_chars ocr_chars : Z) (ocr_min_ratio : float) (min_ocr_chars : Z)
  (r : OCRTableScanResult) :
  decide page box pdf_chars ocr_chars ocr_min_ratio min_ocr_chars = Ok r ->
  exists ratio q,
    ocr_ratio ocr_chars pdf_chars = Ok ratio /\
    float_truediv ratio (float_mul_int ocr_min_ratio 2) = Ok q /\
    pdf_text_chars r = pdf_chars /\
    ocr_text_chars r = ocr_chars /\
    scanned r = (ocr_chars >=? min_ocr_chars) && float_ge ratio ocr_min_ratio /\
    confidence r = py_min one q.
Proof.
  unfold decide.
  destruct (ocr_ratio ocr_chars pdf_chars) as [ratio|e]; cbn [bind]; [|discriminate].
  destruct (float_truediv ratio _) as [q|e] eqn:Hq; cbn [bind]; [|discriminate].
  intros [= <-]. exists ratio, q. repeat split; reflexivity || assumption.
Qed.

Lemma decide_raises (page : Z) (box : float * float * float * float)
  (pdf_chars ocr_chars : Z) (ocr_min_ratio : float) (min_ocr_chars : Z) :
  is_zero (float_mul_int ocr_min_ratio 2) = true ->
  decide page box pdf_chars ocr_chars ocr_min_ratio min_ocr_chars
  = Raise ZeroDivisionError.
Proof.
  intros Hz. unfold decide, float_truediv.
  rewrite ocr_ratio_eq, Hz. reflexivity.
Qed.

(** The verdict, when [ocr_min_ratio * 2] is not zero, field by field. *)
Lemma decide_verdict (page : Z) (box : float * float * float * float)
  (pdf_chars ocr_chars : Z) (ocr_min_ratio : float) (min_ocr_chars : Z) :
  is_zero (float_mul_int ocr_min_ratio 2) = false ->
  decide page box pdf_chars ocr_chars ocr_min_ratio min_ocr_chars
  = let ratio := SFdiv prec emax (float_of_int ocr_chars)
                   (float_of_int (Z.max 1 pdf_chars)) in
    Ok {| page_number := page;
          bbox := box;
          pdf_text_chars := pdf_chars;
          ocr_text_chars := ocr_chars;
          scanned := (ocr_chars >=? min_ocr_chars) && float_ge ratio ocr_min_ratio;
          confidence :=
            py_min one (SFdiv prec emax ratio (float_mul_int ocr_min_ratio 2)) |}.
Proof.
  intros Hz. unfold decide, float_truediv.
  rewrite ocr_ratio_eq. cbn [bind]. rewrite Hz. reflexivity.
Qed.

(** C7, as stated, fails: with [ocr_min_ratio = 0.0] the OCR count reaches
    [min_ocr_chars] and the ratio reaches the threshold, yet no verdict with
    [scanned = true] is returned, because the confidence division of line 54
    raises [ZeroDivisionError]. *)
Lemma zero_threshold_gives_no_verdict :
  ~ (forall (page : Z) (box : float * float * float * float)
            (pdf_text ocr_text : string) (ocr_min_ratio : float)
            (min_ocr_chars : Z),
       let pdf_chars := PyStr.len (PyStr.strip pdf_text) in
       let ocr_chars := PyStr.len (PyStr.strip ocr_text) in
       let ratio := SFdiv prec emax (float_of_int ocr_chars)
                      (float_of_int (Z.max 1 pdf_chars)) in
       ocr_chars >= min_ocr_chars ->
       float_ge ratio ocr_min_ratio = true ->
       exists r,
         detect_scanned_table_by_ocr page box pdf_text ocr_text
           ocr_min_ratio min_ocr_chars = Ok r /\
         scanned r = true).
Proof.
  intros H.
  destruct (H 0 (one, one, one, one) ""%string "abc"%string (S754_zero false) 2)
    as (r & Hr & _).
  - vm_compute. discriminate.
  - reflexivity.
  - vm_compute in Hr. discriminate Hr.
Qed.

(** C7, amended.  For every input whose [ocr_min_ratio * 2] is not zero the
    detector returns a verdict, which carries the stripped lengths of the
    two texts, and: with fewer OCR characters than [min_ocr_chars] its
    [scanned] is false whatever the ratio; with at least that many and a
    ratio [ocr_chars / max(1, pdf_chars)] of at least [ocr_min_ratio] it is
    true; its [confidence] is [min(1.0, ratio / (ocr_min_ratio * 2))] and
    does not exceed 1.0.  When [ocr_min_ratio * 2] is zero no verdict is
    returned: [ZeroDivisionError] is raised. *)
Theorem detect_verdict (page : Z) (box : float * float * float * float)
  (pdf_text ocr_text : string) (ocr_min_ratio : float) (min_ocr_chars : Z) :
  let pdf_chars := PyStr.len (PyStr.strip pdf_text) in
  let ocr_chars := PyStr.len (PyStr.strip ocr_text) in
  let ratio := SFdiv prec emax (float_of_int ocr_chars)
                 (float_of_int (Z.max 1 pdf_chars)) in
  (is_zero (float_mul_int ocr_min_ratio 2) = true ->
   detect_scanned_table_by_ocr page box pdf_text ocr_text
     ocr_min_ratio min_ocr_chars = Raise ZeroDivisionError) /\
  (is_zero (float_mul_int ocr_min_ratio 2) = false ->
   exists r,
     detect_scanned_table_by_ocr page box pdf_text ocr_text
       ocr_min_ratio min_ocr_chars = Ok r /\
     page_number r = page /\ bbox r = box /\
     pdf_text_chars r = pdf_chars /\ ocr_text_chars r = ocr_chars /\
     (ocr_chars < min_ocr_chars -> scanned r = false) /\
     (ocr_chars >= min_ocr_chars -> float_ge ratio ocr_min_ratio = true ->
      scanned r = true) /\
     confidence r
     = py_min one (SFdiv prec emax ratio (float_mul_int ocr_min_ratio 2)) /\
     float_le (confidence r) one = true /\
     float_gt (confidence r) one = false).
Proof.
  intros pdf_chars ocr_chars ratio. unfold detect_scanned_table_by_ocr.
  fold pdf_chars ocr_chars. split.
  - apply decide_raises.
  - intros Hz. rewrite (decide_verdict page box pdf_chars ocr_chars _ _ Hz).
    cbv zeta. fold ratio. eexists. split; [reflexivity|].
    cbn [page_number bbox pdf_text_chars ocr_text_chars scanned confidence].
    repeat split.
    + intros Hlt. replace (ocr_chars >=? min_ocr_chars) with false; [reflexivity|].
      symmetry. rewrite Z.geb_leb. now apply Z.leb_gt.
    + intros Hge Hrat. apply Z.geb_ge in Hge. now rewrite Hge, Hrat.
    + apply py_min_one_bounded.
    + apply py_min_one_bounded.
Qed.

Lemma detect_verdict_witness :
  let box := (float_of_int 0, float_of_int 0, float_of_int 100, float_of_int 50) in
  (exists r,
     detect_scanned_table_by_ocr 0 box " ab " "Name  Qty  Price"
       default_ocr_min_ratio 10 = Ok r /\
     pdf_text_chars r = 2 /\ ocr_text_chars r = 16 /\
     scanned r = true /\ float_le (confidence r) one = true) /\
  detect_scanned_table_by_ocr 0 box " ab " "Name  Qty  Price"
    (S754_zero true) 10 = Raise ZeroDivisionError.
Proof.
  intros box. split.
  - destruct (proj2 (detect_verdict 0 box " ab " "Name  Qty  Price"
                       default_ocr_min_ratio 10) eq_refl)
      as (r & Hr & _ & _ & Hpdf & Hocr & _ & Hscan & _ & Hle & _).
    exists r. split; [exact Hr|]. split; [exact Hpdf|]. split; [exact Hocr|].
    split; [|exact Hle].
    apply Hscan; [vm_compute; discriminate|reflexivity].
  - exact (proj1 (detect_verdict 0 box " ab " "Name  Qty  Price"
                    (S754_zero true) 10) eq_refl).
Defined.

(** With [ocr_min_ratio = 0.0] the confidence of line 54 divides by zero. *)
Lemma zero_threshold_raises (page : Z) (box : float * float * float * float)
  (pdf_text ocr_text : string) (min_ocr_chars : Z) :
  detect_scanned_table_by_ocr page box pdf_text ocr_text (float_of_int 0) min_ocr_chars
  = Raise ZeroDivisionError.
Proof.
  unfold detect_scanned_table_by_ocr, decide. rewrite ocr_ratio_eq. reflexivity.
Qed.

(** C10, as stated, fails: the decision step does raise a division-by-zero
    error, in the confidence division of line 54, when [ocr_min_ratio] is
    0.0; here on a region without PDF characters. *)
Lemma confidence_division_can_fail :
  ~ (forall (page : Z) (box : float * float * float * float)
            (pdf_text ocr_text : string) (ocr_min_ratio : float)
            (min_ocr_chars : Z),
       detect_scanned_table_by_ocr page box pdf_text ocr_text
         ocr_min_ratio min_ocr_chars <> Raise ZeroDivisionError).
Proof.
  intros H.
  apply (H 0 (one, one, one, one) ""%string "scanned text"%string
           (S754_zero false) 50).
  reflexivity.
Qed.

(** C10, amended.  The ratio is computed as [ocr_chars] divided by
    [max(1, pdf_chars)]: that divisor is never 0, so for every input, and
    for [pdf_chars = 0] in particular, the division of line 51 is
    well-defined and the verdict is decided from its quotient.  The decision
    step raises a division-by-zero error exactly when [ocr_min_ratio * 2] is
    zero, in the confidence division of line 54; for every other input it
    returns a verdict. *)
Theorem division_by_zero_only_in_confidence (page : Z)
  (box : float * float * float * float) (pdf_text ocr_text : string)
  (ocr_min_ratio : float) (min_ocr_chars : Z) :
  let pdf_chars := PyStr.len (PyStr.strip pdf_text) in
  let ocr_chars := PyStr.len (PyStr.strip ocr_text) in
  let ratio := SFdiv prec emax (float_of_int ocr_chars)
                 (float_of_int (Z.max 1 pdf_chars)) in
  Z.max 1 pdf_chars <> 0 /\
  int_truediv ocr_chars (Z.max 1 pdf_chars) = Ok ratio /\
  (detect_scanned_table_by_ocr page box pdf_text ocr_text
     ocr_min_ratio min_ocr_chars = Raise ZeroDivisionError <->
   is_zero (float_mul_int ocr_min_ratio 2) = true) /\
  (is_zero (float_mul_int ocr_min_ratio 2) = false ->
   exists r,
     detect_scanned_table_by_ocr page box pdf_text ocr_text
       ocr_min_ratio min_ocr_chars = Ok r /\
     pdf_text_chars r = pdf_chars /\ ocr_text_chars r = ocr_chars /\
     scanned r = (ocr_chars >=? min_ocr_chars) && float_ge ratio ocr_min_ratio).
Proof.
  intros pdf_chars ocr_chars ratio.
  split; [lia|]. split.
  { unfold int_truediv. now rewrite max_one_nonzero. }
  unfold detect_scanned_table_by_ocr. fold pdf_chars ocr_chars.
  destruct (is_zero (float_mul_int ocr_min_ratio 2)) eqn:Hz.
  - rewrite (decide_raises page box pdf_chars ocr_chars _ min_ocr_chars Hz).
    split; [tauto|discriminate].
  - rewrite (decide_verdict page box pdf_chars ocr_chars _ min_ocr_chars Hz).
    cbv zeta. fold ratio. split.
    + split; discriminate.
    + intros _. eexists. split; [reflexivity|]. repeat split.
Qed.

Lemma division_by_zero_only_in_confidence_witness :
  let box := (float_of_int 0, float_of_int 0, float_of_int 100, float_of_int 50) in
  (exists r,
     detect_scanned_table_by_ocr 3 box "" "scanned text" default_ocr_min_ratio 5
       = Ok r /\
     pdf_text_chars r = 0 /\ scanned r = true) /\
  detect_scanned_table_by_ocr 3 box "" "scanned text" (S754_zero false) 5
    = Raise ZeroDivisionError.
Proof.
  intros box. split.
  - destruct (proj2 (proj2 (proj2
                (division_by_zero_only_in_confidence 3 box "" "scanned text"
                   default_ocr_min_ratio 5))) eq_refl)
      as (r & Hr & Hpdf & _ & Hscan).
    exists r. split; [exact Hr|]. split; [exact Hpdf|].
    rewrite Hscan. reflexivity.
  - apply (proj1 (proj2 (proj2
             (division_by_zero_only_in_confidence 3 box "" "scanned text"
                (S754_zero false) 5)))).
    reflexivity.
Defined.

End IsScannedTableSpec.

(** ** The shape of the segmenter's output *)

Module WordParserStructure.

Import WordParser WordParserSpec.
Local Open Scope string_scope.
Local Open Scope list_scope.

Section Structure.

Variable cfg : Config.

Lemma push_sections (st : State) :
  sections (push_current_if_has_content st)
  = sections st ++ filter kept [current st].
Proof.
  unfold push_current_if_has_content, kept. simpl.
  destruct (negb _ || _); simpl; [reflexivity|now rewrite app_nil_r].
Qed.

Lemma filter_head {A : Type} (f : A -> bool) (x : A) (l : list A) :
  filter f (x :: l) = filter f [x] ++ filter f l.
Proof. simpl. now destruct (f x). Qed.

Lemma heading_sections_skip (b : Block) (doc : list Block) :
  is_heading b = false ->
  heading_sections cfg (b :: doc) = heading_sections cfg doc.
Proof.
  destruct b as [p|t]; simpl; [|reflexivity].
  destruct (heading_level p); [discriminate|reflexivity].
Qed.

(** The loop, started in any state, appends to [sections] the current
    section completed by the blocks in front of the next heading, then one
    section per heading, each subject to the test of the final append. *)
Lemma fold_segments (doc : list Block) : forall st : State,
  sections (push_current_if_has_content (fold_left (step cfg) doc st))
  = sections st ++
    filter kept
      ({| title := title (current st);
          level := level (current st);
          content := content (current st)
                     ++ filtered_items cfg (before_first_heading doc) |}
       :: heading_sections cfg doc).
Proof.
  induction doc as [|b doc IH]; intros st.
  - destruct st as [secs [t l c]]. cbn [fold_left]. rewrite push_sections.
    simpl. now rewrite app_nil_r.
  - cbn [fold_left]. destruct (is_heading b) eqn:Hb.
    + destruct b as [p|t]; [|discriminate]. simpl in Hb.
      destruct (heading_level p) as [lvl|] eqn:Hl; [|discriminate].
      rewrite (step_heading cfg st p Hl), IH.
      cbn [sections current title level content app
           before_first_heading is_heading filtered_items heading_sections].
      rewrite Hl, push_sections, app_nil_r, <- app_assoc.
      destruct st as [secs [t l c]]. cbn [sections current title level content].
      now rewrite (filter_head kept {| title := t; level := l; content := c |} (_ :: _)).
    + rewrite (step_non_heading cfg st b Hb), (heading_sections_skip b doc Hb).
      cbn [before_first_heading]. rewrite Hb. cbn [filtered_items]. rewrite Hb.
      destruct (item_of_block cfg b) as [it|]; [|apply IH].
      rewrite IH. unfold append_content.
      cbn [sections current title level content].
      now rewrite <- app_assoc.
Qed.

Lemma parse_is_segmentation (doc : list Block) :
  parse_docx_sections cfg doc = segmentation cfg doc.
Proof.
  unfold parse_docx_sections. rewrite fold_segments. reflexivity.
Qed.

Lemma heading_sections_length (doc : list Block) :
  List.length (heading_sections cfg doc) = count_headings doc.
Proof.
  unfold count_headings.
  induction doc as [|[p|t] doc IH]; simpl; [reflexivity| |exact IH].
  destruct (heading_level p); simpl; now rewrite IH.
Qed.

Lemma heading_sections_from (doc : list Block) (s : Section) :
  In s (heading_sections cfg doc) ->
  exists p,
    In (BParagraph p) doc /\
    heading_level p = Some (level s) /\
    title s = PyStr.strip (paragraph_text cfg p).
Proof.
  induction doc as [|[p|t] doc IH]; simpl; [contradiction| |].
  - destruct (heading_level p) as [lvl|] eqn:Hl.
    + intros [<-|Hs].
      * exists p. simpl. auto.
      * destruct (IH Hs) as (q & Hq & Hrest). exists q. auto.
    + intros Hs. destruct (IH Hs) as (q & Hq & Hrest). exists q. auto.
  - intros Hs. destruct (IH Hs) as (q & Hq & Hrest). exists q. auto.
Qed.

Lemma heading_sections_no_preamble_title (doc : list Block) :
  (forall p, In (BParagraph p) doc -> is_heading (BParagraph p) = true ->
             PyStr.strip (paragraph_text cfg p) <> preamble_title) ->
  filter kept (heading_sections cfg doc) = heading_sections cfg doc.
Proof.
  intros Hdoc. apply forallb_filter_id. apply forallb_forall.
  intros s Hs. destruct (heading_sections_from doc s Hs) as (p & Hp & Hl & Ht).
  unfold kept. rewrite Ht.
  assert (Hne : PyStr.strip (paragraph_text cfg p) <> preamble_title).
  { apply Hdoc; [exact Hp|]. simpl. now rewrite Hl. }
  apply String.eqb_neq in Hne. now rewrite Hne.
Qed.

End Structure.

(** X1. The output is the declarative segmentation of the stream: the
    preamble holding the surviving blocks in front of the first heading,
    then one section per heading-styled paragraph, in order, titled with its
    trimmed text, at its level, holding the surviving blocks up to the next
    heading; of these, a section titled "(preamble)" with no content is left
    out, and nothing else is. *)
Theorem output_is_segmentation (cfg : Config) (doc : list Block) :
  parse_docx_sections cfg doc
  = filter (fun s => negb (String.eqb (title s) "(preamble)") || nonempty (content s))
      ({| title := "(preamble)"; level := 0;
          content := filtered_items cfg (before_first_heading doc) |}
       :: heading_sections cfg doc).
Proof. exact (parse_is_segmentation cfg doc). Qed.

(** X2. Segmenting composes at a heading: the sections of a stream cut in
    front of a heading-styled paragraph are those of the part before it
    followed by those of the part from it on. *)
Theorem parse_splits_at_heading (cfg : Config) (doc rest : list Block)
  (p : Paragraph) :
  is_heading (BParagraph p) = true ->
  parse_docx_sections cfg (doc ++ BParagraph p :: rest)
  = parse_docx_sections cfg doc ++ parse_docx_sections cfg (BParagraph p :: rest).
Proof.
  intros Hp. unfold parse_docx_sections at 1 2.
  rewrite fold_left_app, (fold_segments cfg (BParagraph p :: rest)).
  rewrite push_sections. cbn [before_first_heading]. rewrite Hp.
  cbn [filtered_items]. rewrite app_nil_r.
  rewrite (parse_is_segmentation cfg (BParagraph p :: rest)).
  unfold segmentation, preamble_section. cbn [before_first_heading].
  rewrite Hp. cbn [filtered_items].
  destruct (fold_left (step cfg) doc init_state) as [secs [t l c]].
  cbn [sections current title level content filter].
  replace (kept {| title := preamble_title; level := 0; content := [] |})
    with false by reflexivity.
  rewrite <- app_assoc. f_equal.
  now destruct (kept {| title := t; level := l; content := c |}).
Qed.

Lemma parse_splits_at_heading_witness :
  let h := styled "Scope" "Heading 2" in
  parse_docx_sections default_config
    ([para "Intro" (Some "Heading 1"); para "a" None] ++ BParagraph h :: [para "b" None])
  = parse_docx_sections default_config [para "Intro" (Some "Heading 1"); para "a" None]
    ++ parse_docx_sections default_config (BParagraph h :: [para "b" None]).
Proof.
  intros h.
  apply (parse_splits_at_heading default_config
           [para "Intro" (Some "Heading 1"); para "a" None] [para "b" None] h).
  reflexivity.
Defined.

(** X3. A heading-styled paragraph at the end of the stream opens a section
    with no content, which is emitted all the same, unless its trimmed text
    is "(preamble)": then it is dropped without trace. *)
Theorem trailing_heading_section (cfg : Config) (doc : list Block)
  (p : Paragraph) (lvl : Z) :
  heading_level p = Some lvl ->
  parse_docx_sections cfg (doc ++ [BParagraph p])
  = parse_docx_sections cfg doc ++
    (if String.eqb (PyStr.strip (paragraph_text cfg p)) "(preamble)" then []
     else [{| title := PyStr.strip (paragraph_text cfg p); level := lvl;
              content := [] |}]).
Proof.
  intros Hl. unfold parse_docx_sections.
  rewrite fold_left_app. cbn [fold_left].
  rewrite (step_heading cfg _ p Hl), !push_sections.
  cbn [sections current]. f_equal.
  unfold kept. cbn [filter title content nonempty].
  fold preamble_title.
  now destruct (String.eqb (PyStr.strip (paragraph_text cfg p)) preamble_title).
Qed.

Lemma trailing_heading_section_witness :
  parse_docx_sections default_config
    ([para "a" None] ++ [BParagraph (styled " (preamble) " "Heading 2")])
  = parse_docx_sections default_config [para "a" None] ++ [] /\
  parse_docx_sections default_config
    ([para "a" None] ++ [BParagraph (styled "End" "Heading 2")])
  = parse_docx_sections default_config [para "a" None]
    ++ [{| title := "End"; level := 2; content := [] |}].
Proof.
  split.
  - exact (trailing_heading_section default_config [para "a" None]
             (styled " (preamble) " "Heading 2") eq_refl).
  - exact (trailing_heading_section default_config [para "a" None]
             (styled "End" "Heading 2") eq_refl).
Defined.

(** X4. When no heading-styled paragraph has the trimmed text "(preamble)",
    every heading has its section: the output is the preamble (if a block
    survives in front of the first heading) followed by exactly one section
    per heading, in order, so it has as many sections as there are headings,
    plus one for the preamble. *)
Theorem every_heading_has_its_section (cfg : Config) (doc : list Block) :
  (forall p, In (BParagraph p) doc -> is_heading (BParagraph p) = true ->
             PyStr.strip (paragraph_text cfg p) <> "(preamble)") ->
  parse_docx_sections cfg doc
  = (if nonempty (filtered_items cfg (before_first_heading doc))
     then [preamble_section cfg doc] else [])
    ++ heading_sections cfg doc /\
  List.length (parse_docx_sections cfg doc)
  = (if nonempty (filtered_items cfg (before_first_heading doc)) then 1 else 0)
    + count_headings doc.
Proof.
  intros Hdoc.
  assert (Heq : parse_docx_sections cfg doc
                = (if nonempty (filtered_items cfg (before_first_heading doc))
                   then [preamble_section cfg doc] else [])
                  ++ heading_sections cfg doc).
  { rewrite parse_is_segmentation. unfold segmentation.
    rewrite filter_head, (heading_sections_no_preamble_title cfg doc Hdoc).
    reflexivity. }
  split; [exact Heq|].
  rewrite Heq, length_app, heading_sections_length.
  now destruct (nonempty (filtered_items cfg (before_first_heading doc))).
Qed.

Lemma every_heading_has_its_section_witness :
  let doc := [para "x" None; para "A" (Some "Heading 1");
              para "B" (Some "Heading 2"); table [["c"]]] in
  List.length (parse_docx_sections default_config doc) = 1 + count_headings doc.
Proof.
  intros doc.
  refine (proj2 (every_heading_has_its_section default_config doc _)).
  intros p Hp _. simpl in Hp.
  destruct Hp as [Hp|[Hp|[Hp|[Hp|[]]]]]; try discriminate Hp;
    injection Hp as <-; vm_compute; discriminate.
Defined.

(** X5. There are never more sections than heading-styled paragraphs, plus
    one. *)
Theorem sections_at_most_headings_plus_one (cfg : Config) (doc : list Block) :
  List.length (parse_docx_sections cfg doc) <= S (count_headings doc).
Proof.
  rewrite parse_is_segmentation. unfold segmentation.
  etransitivity; [apply filter_length_le|].
  simpl. now rewrite heading_sections_length.
Qed.

(** X6. Every section of the output is either the preamble (title
    "(preamble)", level 0) or comes from a heading-styled paragraph of the
    stream, whose level and trimmed text it carries.  So the levels of the
    output are non-negative as soon as the levels resolved for the stream's
    paragraphs are. *)
Theorem sections_come_from_headings (cfg : Config) (doc : list Block) :
  (forall s, In s (parse_docx_sections cfg doc) ->
     (title s = "(preamble)" /\ level s = 0%Z) \/
     exists p, In (BParagraph p) doc /\
               heading_level p = Some (level s) /\
               title s = PyStr.strip (paragraph_text cfg p)) /\
  ((forall p lvl, In (BParagraph p) doc -> heading_level p = Some lvl ->
                  (0 <= lvl)%Z) ->
   forall s, In s (parse_docx_sections cfg doc) -> (0 <= level s)%Z).
Proof.
  assert (Hfrom : forall s, In s (parse_docx_sections cfg doc) ->
     (title s = "(preamble)" /\ level s = 0%Z) \/
     exists p, In (BParagraph p) doc /\
               heading_level p = Some (level s) /\
               title s = PyStr.strip (paragraph_text cfg p)).
  { intros s Hs. rewrite parse_is_segmentation in Hs.
    apply filter_In in Hs. destruct Hs as [[<-|Hs] _].
    - left. split; reflexivity.
    - right. exact (heading_sections_from cfg doc s Hs). }
  split; [exact Hfrom|].
  intros Hlv s Hs. destruct (Hfrom s Hs) as [[_ ->]|(p & Hp & Hl & _)].
  - apply Z.le_refl.
  - exact (Hlv p (level s) Hp Hl).
Qed.

Lemma sections_come_from_headings_witness :
  let doc := [para "x" None; para "A" (Some "Heading 1")] in
  let s := {| title := "A"; level := 1; content := [] |} in
  In s (parse_docx_sections default_config doc) /\ (0 <= level s)%Z.
Proof.
  intros doc s.
  assert (Hin : In s (parse_docx_sections default_config doc))
    by (right; left; reflexivity).
  split; [exact Hin|].
  refine (proj2 (sections_come_from_headings default_config doc) _ s Hin).
  intros p lvl Hp. simpl in Hp.
  destruct Hp as [Hp|[Hp|[]]]; injection Hp as <-; vm_compute;
    intros H; [discriminate H|injection H as <-; discriminate].
Defined.

End WordParserStructure.

(** ** Facts about the string operations *)

Module PyStrFacts.

Import PyStr.
Local Open Scope string_scope.
Local Unset Implicit Arguments.

Section Strip.

Variables P Q : ascii -> bool.

Lemma rstrip_by_absorb (s : string) :
  (forall c, Q c = true -> P c = true) ->
  rstrip_by P (rstrip_by Q s) = rstrip_by P s.
Proof.
  intros HQP. induction s as [|c s IH]; [reflexivity|].
  cbn [rstrip_by]. destruct (rstrip_by Q s) as [|a r] eqn:E.
  - cbn [rstrip_by] in IH. rewrite <- IH.
    destruct (Q c) eqn:Hq.
    + now rewrite (HQP c Hq).
    + reflexivity.
  - change (rstrip_by P (String c (String a r)))
      with (match rstrip_by P (String a r) with
            | EmptyString => if P c then EmptyString else String c EmptyString
            | String x y => String c (String x y)
            end).
    now rewrite IH.
Qed.

Lemma lstrip_by_head (s : string) (c : ascii) (r : string) :
  lstrip_by P s = String c r -> P c = false.
Proof.
  induction s as [|a s IH]; simpl; [discriminate|].
  destruct (P a) eqn:Ha; [exact IH|].
  intros [= <- _]. exact Ha.
Qed.

Lemma rstrip_by_keeps_head (c : ascii) (s : string) :
  P c = false -> exists r, rstrip_by P (String c s) = String c r.
Proof.
  intros Hc. cbn [rstrip_by]. destruct (rstrip_by P s) as [|a r].
  - rewrite Hc. now exists EmptyString.
  - now exists (String a r).
Qed.

Lemma rstrip_by_cons_congr (c : ascii) (s t : string) :
  rstrip_by P s = rstrip_by P t ->
  rstrip_by P (String c s) = rstrip_by P (String c t).
Proof. intros H. cbn [rstrip_by]. now rewrite H. Qed.

End Strip.

Lemma newline_isspace (c : ascii) :
  N.eqb (code c) 10 = true -> isspace c = true.
Proof.
  intros H. apply N.eqb_eq in H. unfold isspace. now rewrite H.
Qed.

Lemma strip_idempotent (s : string) : strip (strip s) = strip s.
Proof.
  unfold strip. destruct (lstrip_by isspace s) as [|c r] eqn:E; [reflexivity|].
  pose proof (lstrip_by_head isspace s c r E) as Hc.
  destruct (rstrip_by_keeps_head isspace c r Hc) as [r' Hr].
  rewrite Hr. cbn [lstrip_by]. rewrite Hc, <- Hr.
  apply rstrip_by_absorb. auto.
Qed.

(** Trimming the trailing newlines first changes nothing to [strip]. *)
Lemma strip_rstrip_newline (s : string) : strip (rstrip_newline s) = strip s.
Proof.
  unfold strip, rstrip_newline.
  set (nl := fun c : ascii => N.eqb (code c) 10).
  induction s as [|c s IH]; [reflexivity|].
  cbn [lstrip_by]. destruct (isspace c) eqn:Hsp.
  - cbn [rstrip_by]. destruct (rstrip_by nl s) as [|a r] eqn:E.
    + rewrite <- IH. cbn [lstrip_by rstrip_by].
      destruct (nl c); cbn [lstrip_by rstrip_by]; [reflexivity|].
      now rewrite Hsp.
    + rewrite <- IH.
      change (lstrip_by isspace (String c (String a r)))
        with (if isspace c then lstrip_by isspace (String a r)
              else String c (String a r)).
      now rewrite Hsp.
  - assert (Hnl : nl c = false).
    { destruct (nl c) eqn:Hn; [|reflexivity].
      apply newline_isspace in Hn. congruence. }
    assert (Hcons : rstrip_by nl (String c s) = String c (rstrip_by nl s)).
    { cbn [rstrip_by]. destruct (rstrip_by nl s); [now rewrite Hnl|reflexivity]. }
    rewrite Hcons. cbn [lstrip_by]. rewrite Hsp.
    apply rstrip_by_cons_congr, rstrip_by_absorb. exact newline_isspace.
Qed.

(** *** Decimal digits *)

Lemma digit_cases (c : ascii) (d : Z) :
  digit_value c = Some d ->
  In c ["0"; "1"; "2"; "3"; "4"; "5"; "6"; "7"; "8"; "9"]%char /\
  d = (Z.of_N (code c) - 48)%Z.
Proof.
  destruct c as [[] [] [] [] [] [] [] []]; vm_compute; intros [= <-];
    split; try reflexivity; tauto.
Qed.

Lemma digit_plain (c : ascii) (d : Z) :
  digit_value c = Some d ->
  isspace c = false /\ int_space c = false /\ is_underscore c = false /\
  lower_char c = c /\ c <> "h"%char /\ c <> "+"%char /\ c <> "-"%char.
Proof.
  intros H. destruct (digit_cases c d H) as [Hin _]. simpl in Hin.
  repeat (destruct Hin as [<-|Hin]; [repeat split; discriminate || reflexivity|]).
  contradiction.
Qed.

Lemma all_digits_cons (c : ascii) (s : string) :
  all_digits (String c s) = true ->
  exists d, digit_value c = Some d /\ all_digits s = true.
Proof.
  simpl. destruct (digit_value c) as [d|]; [|discriminate].
  intros H. now exists d.
Qed.

Lemma lower_app (s t : string) : lower (s ++ t) = lower s ++ lower t.
Proof. induction s as [|c s IH]; simpl; [reflexivity|now rewrite IH]. Qed.

Lemma lower_digits (s : string) : all_digits s = true -> lower s = s.
Proof.
  induction s as [|c s IH]; [reflexivity|]. intros H.
  destruct (all_digits_cons c s H) as (d & Hd & Hs).
  simpl. rewrite (IH Hs).
  destruct (digit_plain c d Hd) as (_ & _ & _ & -> & _). reflexivity.
Qed.

Lemma rstrip_digits (s : string) :
  all_digits s = true -> rstrip_by isspace s = s.
Proof.
  induction s as [|c s IH]; [reflexivity|]. intros H.
  destruct (all_digits_cons c s H) as (d & Hd & Hs).
  cbn [rstrip_by]. rewrite (IH Hs).
  destruct (digit_plain c d Hd) as (-> & _). now destruct s.
Qed.

Lemma rstrip_by_app_fixed (P : ascii -> bool) (pre s : string) :
  rstrip_by P s = s -> s <> "" -> rstrip_by P (pre ++ s) = pre ++ s.
Proof.
  intros Hs Hne. induction pre as [|c pre IH]; [exact Hs|].
  cbn [append rstrip_by]. rewrite IH.
  destruct (pre ++ s) eqn:E; [|reflexivity].
  destruct pre; [now subst|discriminate].
Qed.

Lemma append_empty_r (s : string) : s ++ "" = s.
Proof. induction s as [|a s IH]; simpl; [reflexivity|now rewrite IH]. Qed.

Lemma append_snoc (cur : string) (c : ascii) (s : string) :
  (cur ++ String c "") ++ s = cur ++ String c s.
Proof. induction cur as [|a cur IH]; simpl; [reflexivity|now rewrite IH]. Qed.

Lemma split_go_digits (sep' : string) (s : string) : forall cur : string,
  all_digits s = true ->
  split_go (String "h" sep') 0 cur s = [cur ++ s].
Proof.
  induction s as [|c s IH]; intros cur H.
  - simpl. now rewrite append_empty_r.
  - destruct (all_digits_cons c s H) as (d & Hd & Hs).
    destruct (digit_plain c d Hd) as (_ & _ & _ & _ & Hh & _).
    cbn [split_go String.prefix].
    destruct (Ascii.ascii_dec "h" c) as [Heq|_]; [now elim Hh|].
    now rewrite (IH _ Hs), append_snoc.
Qed.

Lemma scan_digits_digits (s : string) : forall (seen : bool) (acc : Z),
  all_digits s = true -> (seen = true \/ s <> "") ->
  scan_digits s false seen acc = Ok (decimal_value_from acc s, "").
Proof.
  induction s as [|c s IH]; intros seen acc H Hseen.
  - destruct Hseen as [->|Hne]; [reflexivity|now elim Hne].
  - destruct (all_digits_cons c s H) as (d & Hd & Hs).
    destruct (digit_plain c d Hd) as (_ & _ & Hus & _).
    destruct (digit_cases c d Hd) as [_ Hdv].
    cbn [scan_digits decimal_value_from]. rewrite Hus, Hd, Hdv.
    apply IH; auto.
Qed.

Lemma count_digits_all (s : string) :
  all_digits s = true -> count_digits s = String.length s.
Proof.
  induction s as [|c s IH]; [reflexivity|]. intros H.
  destruct (all_digits_cons c s H) as (d & Hd & Hs).
  cbn [count_digits String.length]. now rewrite Hd, (IH Hs).
Qed.

(** [int] on a string of digits: the part that does not depend on the cap. *)
Lemma int_digits_cap (s : string) :
  all_digits s = true -> s <> "" ->
  int s = if Nat.ltb max_str_digits (String.length s) then Raise ValueError
          else Ok (decimal_value s).
Proof.
  intros H Hne. destruct s as [|c s]; [now elim Hne|].
  destruct (all_digits_cons c s H) as (d & Hd & Hs).
  pose proof (scan_digits_digits _ false 0%Z H (or_intror Hne)) as Hscan.
  pose proof (count_digits_all _ H) as Hcnt.
  destruct (digit_cases c d Hd) as [Hin _]. simpl in Hin.
  unfold int, decimal_value.
  repeat (destruct Hin as [<-|Hin];
          [cbn [lstrip_by];
           match goal with
           | |- context [int_space ?c0] => change (int_space c0) with false
           end;
           cbv iota; rewrite Hscan; cbn [bind lstrip_by];
           now rewrite Hcnt, Z.mul_1_l|]).
  contradiction.
Qed.

Lemma int_digits (s : string) :
  all_digits s = true -> s <> "" -> String.length s <= max_str_digits ->
  int s = Ok (decimal_value s).
Proof.
  intros H Hne Hlen. rewrite (int_digits_cap s H Hne).
  now rewrite (proj2 (Nat.ltb_ge _ _) Hlen).
Qed.

Lemma int_too_many_digits (s : string) :
  all_digits s = true -> max_str_digits < String.length s ->
  int s = Raise ValueError.
Proof.
  intros H Hlen.
  assert (Hne : s <> "") by (intros ->; simpl in Hlen; inversion Hlen).
  rewrite (int_digits_cap s H Hne).
  now rewrite (proj2 (Nat.ltb_lt _ _) Hlen).
Qed.

End PyStrFacts.

(** ** What the sections hold *)

Module WordParserContent.

Import WordParser WordParserSpec WordParserStructure PyStrFacts.
Local Open Scope string_scope.
Local Open Scope list_scope.
Local Unset Implicit Arguments.

Lemma all_items_parse (cfg : Config) (doc : list Block) :
  all_items (parse_docx_sections cfg doc) = filtered_items cfg doc.
Proof.
  unfold all_items, parse_docx_sections.
  now rewrite push_collected, fold_collected.
Qed.

Lemma filtered_items_In (cfg : Config) (doc : list Block) (it : Item) :
  In it (filtered_items cfg doc) ->
  exists b, In b doc /\ is_heading b = false /\ item_of_block cfg b = Some it.
Proof.
  induction doc as [|b doc IH]; simpl; [contradiction|].
  destruct (is_heading b) eqn:Hb.
  - intros H. destruct (IH H) as (b' & Hin & Hrest). exists b'. auto.
  - destruct (item_of_block cfg b) as [it'|] eqn:Hit.
    + intros [<-|H].
      * exists b. auto.
      * destruct (IH H) as (b' & Hin & Hrest). exists b'. auto.
    + intros H. destruct (IH H) as (b' & Hin & Hrest). exists b'. auto.
Qed.

Lemma table_to_matrix_cells (t : Table) (row : list string) (cell : string) :
  In row (table_to_matrix t) -> In cell row -> PyStr.strip cell = cell.
Proof.
  unfold table_to_matrix. intros Hrow Hcell.
  apply in_map_iff in Hrow. destruct Hrow as (raw & <- & _).
  apply in_map_iff in Hcell. destruct Hcell as (c & <- & _).
  apply strip_idempotent.
Qed.

(** X7. Every text of the output is trimmed: the section titles, the
    paragraph texts and the table cells have no blank at either end; and
    under [include_empty_paragraphs = false] no paragraph item has an empty
    text. *)
Theorem output_texts_are_trimmed (cfg : Config) (doc : list Block) :
  (forall s, In s (parse_docx_sections cfg doc) ->
             PyStr.strip (title s) = title s) /\
  (forall text sty,
     In (ItemParagraph text sty) (all_items (parse_docx_sections cfg doc)) ->
     PyStr.strip text = text /\
     (include_empty_paragraphs cfg = false -> text <> "")) /\
  (forall rows row cell,
     In (ItemTable rows) (all_items (parse_docx_sections cfg doc)) ->
     In row rows -> In cell row -> PyStr.strip cell = cell).
Proof.
  split; [|split].
  - intros s Hs. rewrite parse_is_segmentation in Hs.
    apply filter_In in Hs. destruct Hs as [[<-|Hs] _]; [reflexivity|].
    destruct (heading_sections_from cfg doc s Hs) as (p & _ & _ & ->).
    apply strip_idempotent.
  - intros text sty Hin. rewrite all_items_parse in Hin.
    destruct (filtered_items_In cfg doc _ Hin) as ([p|t] & _ & _ & Hit);
      simpl in Hit.
    + destruct (include_empty_paragraphs cfg) eqn:He; simpl in Hit.
      * injection Hit as <- _. split; [apply strip_idempotent|discriminate].
      * destruct (PyStr.strip (paragraph_text cfg p)) as [|c r] eqn:Hs;
          simpl in Hit; [discriminate|].
        injection Hit as <- _. split; [|discriminate].
        rewrite <- Hs. apply strip_idempotent.
    + destruct (include_tables cfg); discriminate.
  - intros rows row cell Hin Hrow Hcell. rewrite all_items_parse in Hin.
    destruct (filtered_items_In cfg doc _ Hin) as ([p|t] & _ & _ & Hit);
      simpl in Hit.
    + destruct (negb _ && _); discriminate.
    + destruct (include_tables cfg); [|discriminate].
      injection Hit as <-. exact (table_to_matrix_cells t row cell Hrow Hcell).
Qed.

Lemma output_texts_are_trimmed_witness :
  let doc := [para "  Hello  " None; para " Title " (Some "Heading 1");
              table [[" a "]]] in
  In (ItemParagraph "Hello" None)
     (all_items (parse_docx_sections default_config doc)) /\
  PyStr.strip "Hello" = "Hello" /\ "Hello" <> "".
Proof.
  intros doc.
  assert (Hin : In (ItemParagraph "Hello" None)
                   (all_items (parse_docx_sections default_config doc)))
    by (left; reflexivity).
  split; [exact Hin|].
  destruct (proj1 (proj2 (output_texts_are_trimmed default_config doc))
              "Hello" None Hin) as [Htrim Hne].
  split; [exact Htrim|exact (Hne eq_refl)].
Defined.

(** X8. With [include_tables = false] no table reaches the output, and the
    tables are all that this switch removes: the paragraph items are those of
    the run with tables included. *)
Theorem no_table_when_excluded (cfg : Config) (doc : list Block) :
  include_tables cfg = false ->
  (forall it, In it (all_items (parse_docx_sections cfg doc)) ->
              is_table_item it = false) /\
  all_items (parse_docx_sections cfg doc)
  = filter (fun it => negb (is_table_item it))
      (all_items (parse_docx_sections
                    {| include_tables := true;
                       include_empty_paragraphs := include_empty_paragraphs cfg;
                       merge_paragraph_runs := merge_paragraph_runs cfg |} doc)).
Proof.
  intros Hcfg. split.
  - intros it Hin. rewrite all_items_parse in Hin.
    destruct (filtered_items_In cfg doc _ Hin) as ([p|t] & _ & _ & Hit);
      simpl in Hit.
    + destruct (negb _ && _); [discriminate|]. now injection Hit as <-.
    + rewrite Hcfg in Hit. discriminate.
  - rewrite !all_items_parse.
    induction doc as [|b doc IH]; [reflexivity|].
    cbn [filtered_items]. destruct (is_heading b); [exact IH|].
    destruct b as [p|t]; cbn [item_of_block].
    + unfold paragraph_text. cbn [include_empty_paragraphs merge_paragraph_runs].
      destruct (negb _ && _); cbn [filter is_table_item negb]; now rewrite IH.
    + rewrite Hcfg. cbn [include_tables filter is_table_item negb]. exact IH.
Qed.

Lemma no_table_when_excluded_witness :
  let cfg := {| include_tables := false; include_empty_paragraphs := false;
                merge_paragraph_runs := true |} in
  let doc := [para "a" None; table [["x"]]; para "T" (Some "Heading 1");
              table [["y"]]] in
  all_items (parse_docx_sections cfg doc)
  = filter (fun it => negb (is_table_item it))
      (all_items (parse_docx_sections default_config doc)).
Proof.
  intros cfg doc. exact (proj2 (no_table_when_excluded cfg doc eq_refl)).
Defined.

(** X9. With tables and empty paragraphs both included nothing is dropped:
    there is one content item per block that is not a heading. *)
Theorem nothing_dropped_when_all_included (cfg : Config) (doc : list Block) :
  include_tables cfg = true -> include_empty_paragraphs cfg = true ->
  List.length (all_items (parse_docx_sections cfg doc)) + count_headings doc
  = List.length doc.
Proof.
  intros Ht He. rewrite all_items_parse. unfold count_headings.
  induction doc as [|b doc IH]; [reflexivity|].
  cbn [filtered_items filter]. destruct (is_heading b).
  - cbn [List.length]. rewrite <- IH. apply Nat.add_succ_r.
  - assert (Hit : exists it, item_of_block cfg b = Some it).
    { destruct b as [p|t]; simpl; rewrite ?He, ?Ht; simpl; eauto. }
    destruct Hit as [it ->]. cbn [List.length]. now rewrite <- IH.
Qed.

Lemma nothing_dropped_when_all_included_witness :
  let cfg := {| include_tables := true; include_empty_paragraphs := true;
                merge_paragraph_runs := true |} in
  let doc := [para "" None; table []; para "T" (Some "Heading 1"); para " " None] in
  List.length (all_items (parse_docx_sections cfg doc)) + count_headings doc = 4.
Proof.
  intros cfg doc.
  exact (nothing_dropped_when_all_included cfg doc eq_refl eq_refl).
Defined.

(** X10. [table_to_matrix] keeps the shape of the table (as many rows, and
    in each row as many cells), trims every cell, and applied to its own
    result changes nothing. *)
Theorem table_to_matrix_shape_and_trim (t : Table) :
  map (@List.length string) (table_to_matrix t)
  = map (@List.length string) (t_rows t) /\
  (forall row cell, In row (table_to_matrix t) -> In cell row ->
                    PyStr.strip cell = cell) /\
  table_to_matrix {| t_rows := table_to_matrix t |} = table_to_matrix t.
Proof.
  split; [|split].
  - unfold table_to_matrix. rewrite map_map. apply map_ext.
    intros row. apply length_map.
  - exact (table_to_matrix_cells t).
  - unfold table_to_matrix. cbn [t_rows]. rewrite map_map. apply map_ext.
    intros row. rewrite map_map. apply map_ext. exact strip_idempotent.
Qed.

Lemma table_to_matrix_shape_and_trim_witness :
  let t := {| t_rows := [[" a "; "b"]; []] |} in
  PyStr.strip "a" = "a".
Proof.
  intros t.
  apply (proj1 (proj2 (table_to_matrix_shape_and_trim t)) ["a"; "b"] "a").
  - simpl. left. reflexivity.
  - simpl. left. reflexivity.
Defined.

(** X11. Removing the trailing newlines on line 100 has no effect on what is
    emitted: titles and paragraph texts are the trimmed text of the
    paragraph as python-docx gives it, and the same text decides whether the
    paragraph counts as empty. *)
Theorem newline_trim_is_absorbed (cfg : Config) (p : Paragraph) :
  PyStr.strip (paragraph_text cfg p) = PyStr.strip (raw_text cfg p) /\
  item_of_block cfg (BParagraph p)
  = (if negb (include_empty_paragraphs cfg)
        && negb (PyStr.truthy (PyStr.strip (raw_text cfg p)))
     then None
     else Some (ItemParagraph (PyStr.strip (raw_text cfg p)) (item_style p))).
Proof.
  assert (H : PyStr.strip (paragraph_text cfg p) = PyStr.strip (raw_text cfg p))
    by apply strip_rstrip_newline.
  split; [exact H|]. cbn [item_of_block]. now rewrite H.
Qed.

Lemma fold_left_ext_in {A B : Type} (f g : A -> B -> A) (l : list B) :
  (forall b, In b l -> forall a, f a b = g a b) ->
  forall a, fold_left f l a = fold_left g l a.
Proof.
  induction l as [|b l IH]; intros H a; [reflexivity|].
  cbn [fold_left]. rewrite (H b (or_introl eq_refl)).
  apply IH. intros b' Hb'. apply H. now right.
Qed.

(** X12. When the merged text of every paragraph is the concatenation of its
    run texts, [merge_paragraph_runs] makes no difference to the output. *)
Theorem merge_flag_irrelevant (cfg : Config) (doc : list Block) :
  (forall p, In (BParagraph p) doc -> p_text p = PyStr.join_empty (p_runs p)) ->
  parse_docx_sections (with_merge cfg true) doc
  = parse_docx_sections (with_merge cfg false) doc.
Proof.
  intros Hdoc. unfold parse_docx_sections. do 2 f_equal.
  apply fold_left_ext_in. intros [p|t] Hb st; [|reflexivity].
  unfold step, paragraph_text, with_merge.
  cbn [merge_paragraph_runs include_empty_paragraphs].
  now rewrite (Hdoc p Hb).
Qed.

Lemma merge_flag_irrelevant_witness :
  let doc := [BParagraph {| p_text := "Hello world"; p_runs := ["Hello "; "world"];
                            p_style := None |}] in
  parse_docx_sections (with_merge default_config true) doc
  = parse_docx_sections (with_merge default_config false) doc.
Proof.
  intros doc. apply (merge_flag_irrelevant default_config doc).
  intros p [Hp|[]]. injection Hp as <-. reflexivity.
Defined.

End WordParserContent.

(** ** Heading levels written in decimal *)

Module WordParserHeading.

Import WordParser PyStrFacts.
Local Open Scope string_scope.
Local Open Scope list_scope.
Local Unset Implicit Arguments.

Lemma normalised_heading_name (digits : string) :
  PyStr.all_digits digits = true -> digits <> "" ->
  PyStr.lower (PyStr.strip ("Heading " ++ digits)%string)
  = ("heading " ++ digits)%string.
Proof.
  intros Hd Hne. unfold PyStr.strip.
  change (PyStr.lstrip_by PyStr.isspace ("Heading " ++ digits)%string)
    with ("Heading " ++ digits)%string.
  rewrite (rstrip_by_app_fixed PyStr.isspace "Heading " digits
             (rstrip_digits digits Hd) Hne).
  rewrite lower_app, (lower_digits digits Hd). reflexivity.
Qed.

Lemma prefix_empty (s : string) : String.prefix "" s = true.
Proof. now destruct s. Qed.

Lemma split_heading_name (digits : string) :
  PyStr.all_digits digits = true ->
  PyStr.split ("heading " ++ digits)%string heading_prefix = Ok [""; digits].
Proof.
  intros Hd. unfold PyStr.split, heading_prefix. cbn.
  now rewrite prefix_empty, (split_go_digits "eading " digits "" Hd).
Qed.

Lemma startswith_heading_name (digits : string) :
  PyStr.startswith ("heading " ++ digits)%string heading_prefix = true.
Proof. unfold PyStr.startswith, heading_prefix. cbn. apply prefix_empty. Qed.

Lemma heading_level_of_digits (text digits : string) :
  PyStr.all_digits digits = true -> digits <> "" ->
  heading_level (styled text ("Heading " ++ digits)%string)
  = match PyStr.int digits with
    | Ok lvl => Some lvl
    | Raise _ => None
    end.
Proof.
  intros Hd Hne. unfold heading_level, styled. cbn [p_style style_name].
  change (PyStr.truthy ("Heading " ++ digits)%string) with true. cbn [negb].
  rewrite (normalised_heading_name digits Hd Hne).
  rewrite (startswith_heading_name digits).
  rewrite (split_heading_name digits Hd). cbn [bind PyStr.getitem nth_error].
  reflexivity.
Qed.

(** X13. A style name "Heading N", with N a non-empty string of at most 4300
    decimal digits, resolves to the number N writes: levels beyond 9, and
    leading zeros, are accepted.  With more than 4300 digits [int] refuses
    the literal and no level is resolved. *)
Theorem heading_level_decimal (text digits : string) :
  PyStr.all_digits digits = true -> digits <> "" ->
  (String.length digits <= 4300 ->
   heading_level (styled text ("Heading " ++ digits)%string)
   = Some (PyStr.decimal_value digits)) /\
  (4300 < String.length digits ->
   heading_level (styled text ("Heading " ++ digits)%string) = None).
Proof.
  intros Hd Hne. rewrite (heading_level_of_digits text digits Hd Hne). split.
  - intros Hlen. now rewrite (int_digits digits Hd Hne Hlen).
  - intros Hlen. now rewrite (int_too_many_digits digits Hd Hlen).
Qed.

Lemma heading_level_decimal_witness :
  heading_level (styled "Annex" "Heading 012") = Some 12%Z.
Proof.
  refine (proj1 (heading_level_decimal "Annex" "012" eq_refl _) _).
  - discriminate.
  - apply Nat.leb_le. reflexivity.
Defined.

End WordParserHeading.

(** ** The traversal of the document body *)

Module WordParserBlocks.

Import WordParser PyStrFacts.
Local Open Scope string_scope.
Local Open Scope list_scope.
Local Unset Implicit Arguments.

Lemma endswith_app (pre suf : string) :
  PyStr.endswith (pre ++ suf)%string suf = true.
Proof.
  induction pre as [|c pre IH].
  - cbn [append]. destruct suf; cbn [PyStr.endswith]; now rewrite String.eqb_refl.
  - cbn [append PyStr.endswith]. rewrite IH. now destruct (String.eqb _ _).
Qed.

Lemma endswith_inv (s suf : string) :
  PyStr.endswith s suf = true -> exists pre, s = (pre ++ suf)%string.
Proof.
  induction s as [|c s IH]; cbn [PyStr.endswith].
  - destruct (String.eqb_spec "" suf) as [<-|_]; [|discriminate].
    intros _. now exists "".
  - destruct (String.eqb_spec (String c s) suf) as [<-|_].
    + intros _. now exists "".
    + intros H. destruct (IH H) as [pre ->]. now exists (String c pre).
Qed.

Lemma contains_char_middle (c : ascii) (a b : string) :
  PyStr.contains_char c (a ++ String c b)%string = true.
Proof.
  induction a as [|x a IH]; simpl.
  - now rewrite Ascii.eqb_refl.
  - rewrite IH. apply Bool.orb_true_r.
Qed.

(** The text behind the last occurrence of a character is determined. *)
Lemma after_last_char (c : ascii) (a : string) : forall a' b b' : string,
  PyStr.contains_char c b = false -> PyStr.contains_char c b' = false ->
  (a ++ String c b)%string = (a' ++ String c b')%string -> b = b'.
Proof.
  induction a as [|x a IH]; intros [|x' a'] b b' Hb Hb'; simpl.
  - now intros [= ->].
  - intros [= <- ->]. now rewrite contains_char_middle in Hb.
  - intros [= -> <-]. now rewrite contains_char_middle in Hb'.
  - intros [= <- H]. exact (IH a' b b' Hb Hb' H).
Qed.

Lemma endswith_clark (namespace local name : string) :
  PyStr.contains_char "}" local = false ->
  PyStr.contains_char "}" name = false ->
  PyStr.endswith (clark namespace local) (String "}" name) = String.eqb local name.
Proof.
  intros Hl Hn. unfold clark.
  destruct (String.eqb_spec local name) as [->|Hne].
  - change ("{" ++ namespace ++ "}" ++ name)%string
      with (("{" ++ namespace) ++ ("}" ++ name))%string at 1.
    replace ("{" ++ namespace ++ "}" ++ name)%string
      with (("{" ++ namespace) ++ String "}" name)%string.
    + apply endswith_app.
    + simpl. reflexivity.
  - destruct (PyStr.endswith _ _) eqn:E; [|reflexivity].
    apply endswith_inv in E. destruct E as [pre E].
    elim Hne.
    apply (after_last_char "}" (String "{" namespace) pre local name Hl Hn).
    simpl. simpl in E. exact E.
Qed.

(** X14. For a child whose tag is in Clark notation, [{namespace}local],
    only the local name decides: "p" yields the child as a paragraph, "tbl"
    as a table, anything else (such as "sectPr") is skipped, whatever the
    namespace; the rest of the body follows in order. *)
Theorem iter_block_items_by_local_name (namespace local : string)
  (child : Element) (body : list Element) :
  tag child = clark namespace local ->
  PyStr.contains_char "}" local = false ->
  iter_block_items (child :: body)
  = (if String.eqb local "p" then [BParagraph (as_paragraph child)]
     else if String.eqb local "tbl" then [BTable (as_table child)]
     else [])
    ++ iter_block_items body.
Proof.
  intros Htag Hlocal. unfold iter_block_items. cbn [flat_map].
  rewrite Htag.
  rewrite (endswith_clark namespace local "p" Hlocal eq_refl).
  rewrite (endswith_clark namespace local "tbl" Hlocal eq_refl).
  reflexivity.
Qed.

Lemma iter_block_items_by_local_name_witness :
  let w := "http://schemas.openxmlformats.org/wordprocessingml/2006/main" in
  let p := {| p_text := "Hello"; p_runs := ["Hello"]; p_style := None |} in
  let t := {| t_rows := [] |} in
  iter_block_items
    [ {| tag := clark w "sectPr"; as_paragraph := p; as_table := t |};
      {| tag := clark w "p"; as_paragraph := p; as_table := t |} ]
  = [] ++ iter_block_items [ {| tag := clark w "p"; as_paragraph := p; as_table := t |} ].
Proof.
  intros w p t.
  exact (iter_block_items_by_local_name w "sectPr"
           {| tag := clark w "sectPr"; as_paragraph := p; as_table := t |}
           [ {| tag := clark w "p"; as_paragraph := p; as_table := t |} ]
           eq_refl eq_refl).
Defined.

End WordParserBlocks.

(** ** More on the scanned-PDF detector *)

Module IsScannedPdfMore.

Import IsScannedPdf IsScannedPdfSpec.
Local Open Scope Z_scope.
Local Unset Implicit Arguments.

Lemma total_text_length_nonneg (doc : list Page) : 0 <= total_text_length doc.
Proof.
  unfold total_text_length.
  induction doc as [|p doc IH]; simpl; [apply Z.le_refl|].
  unfold PyStr.len at 1. lia.
Qed.

Lemma is_pdf_scanned_eq (doc : list Page) (min_text_chars : Z) (req : bool) :
  is_pdf_scanned doc min_text_chars req
  = (total_text_length doc <? min_text_chars)
    && (negb req || any_page_has_image doc).
Proof.
  unfold is_pdf_scanned. rewrite scan_pages_eq. simpl.
  rewrite Z.geb_leb, Z.ltb_antisym.
  destruct (min_text_chars <=? total_text_length doc); simpl; [reflexivity|].
  now destruct req.
Qed.

Lemma total_text_length_perm (doc doc' : list Page) :
  Permutation doc doc' -> total_text_length doc = total_text_length doc'.
Proof.
  unfold total_text_length.
  induction 1 as [|p l l' _ IH|p q l|l l' l'' _ IH1 _ IH2]; simpl.
  - reflexivity.
  - now rewrite IH.
  - lia.
  - now rewrite IH1.
Qed.

Lemma any_page_has_image_perm (doc doc' : list Page) :
  Permutation doc doc' -> any_page_has_image doc = any_page_has_image doc'.
Proof.
  unfold any_page_has_image.
  induction 1 as [|p l l' _ IH|p q l|l l' l'' _ IH1 _ IH2]; simpl.
  - reflexivity.
  - now rewrite IH.
  - now rewrite !orb_assoc, (orb_comm (WordParser.nonempty (get_images q))).
  - now rewrite IH1.
Qed.

(** X16. With [require_images = false] the images play no part: the PDF is
    reported scanned exactly when its total text length is below
    [min_text_chars]. *)
Theorem without_require_images_text_decides (doc : list Page)
  (min_text_chars : Z) :
  is_pdf_scanned doc min_text_chars false
  = (total_text_length doc <? min_text_chars).
Proof. rewrite is_pdf_scanned_eq. simpl. apply andb_true_r. Qed.

(** X17. The verdict does not depend on the order of the pages. *)
Theorem verdict_ignores_page_order (doc doc' : list Page)
  (min_text_chars : Z) (require_images : bool) :
  Permutation doc doc' ->
  is_pdf_scanned doc min_text_chars require_images
  = is_pdf_scanned doc' min_text_chars require_images.
Proof.
  intros Hperm. rewrite !is_pdf_scanned_eq.
  now rewrite (total_text_length_perm doc doc' Hperm),
              (any_page_has_image_perm doc doc' Hperm).
Qed.

Lemma verdict_ignores_page_order_witness :
  let a := {| get_text := "page one"; get_images := [] |} in
  let b := {| get_text := ""; get_images := [3] |} in
  is_pdf_scanned [a; b] 20 true = is_pdf_scanned [b; a] 20 true.
Proof.
  intros a b. apply (verdict_ignores_page_order [a; b] [b; a] 20 true).
  apply perm_swap.
Defined.

(** X18. With a threshold [min_text_chars <= 0] no PDF is reported scanned,
    not even one without pages or without text. *)
Theorem nonpositive_threshold_never_scanned (doc : list Page)
  (min_text_chars : Z) (require_images : bool) :
  min_text_chars <= 0 ->
  is_pdf_scanned doc min_text_chars require_images = false.
Proof.
  intros Hmin. rewrite is_pdf_scanned_eq.
  pose proof (total_text_length_nonneg doc) as Hnn.
  replace (total_text_length doc <? min_text_chars) with false; [reflexivity|].
  symmetry. apply Z.ltb_ge. lia.
Qed.

Lemma nonpositive_threshold_never_scanned_witness :
  is_pdf_scanned [] 0 false = false /\
  is_pdf_scanned [{| get_text := " "; get_images := [1] |}] (-5) true = false.
Proof.
  split.
  - apply (nonpositive_threshold_never_scanned [] 0 false). lia.
  - apply (nonpositive_threshold_never_scanned
             [{| get_text := " "; get_images := [1] |}] (-5) true). lia.
Defined.

(** X19. With [require_images = true] a PDF none of whose pages holds an
    image is never reported scanned, however little text it has; a PDF
    without pages in particular. *)
Theorem no_image_never_scanned (doc : list Page) (min_text_chars : Z) :
  any_page_has_image doc = false ->
  is_pdf_scanned doc min_text_chars true = false.
Proof.
  intros Himg. rewrite is_pdf_scanned_eq, Himg. apply andb_false_r.
Qed.

Lemma no_image_never_scanned_witness :
  is_pdf_scanned [] 20 true = false /\
  is_pdf_scanned [{| get_text := ""; get_images := [] |}] 20 true = false.
Proof.
  split.
  - exact (no_image_never_scanned [] 20 eq_refl).
  - exact (no_image_never_scanned [{| get_text := ""; get_images := [] |}] 20 eq_refl).
Defined.

End IsScannedPdfMore.

(** ** More on the scanned-table detector *)

Module IsScannedTableMore.

Import IsScannedTable IsScannedTableSpec.
Local Open Scope Z_scope.
Local Unset Implicit Arguments.

(** X20. The decision fails in one way only: it raises [ZeroDivisionError],
    and it does so exactly when [ocr_min_ratio * 2] is zero; a threshold of
    0.0 or -0.0 is such a case. *)
Theorem detect_fails_only_on_zero_threshold (page : Z)
  (box : float * float * float * float) (pdf_text ocr_text : string)
  (ocr_min_ratio : float) (min_ocr_chars : Z) :
  (forall e,
     detect_scanned_table_by_ocr page box pdf_text ocr_text
       ocr_min_ratio min_ocr_chars = Raise e <->
     e = ZeroDivisionError /\ is_zero (float_mul_int ocr_min_ratio 2) = true) /\
  (forall sign,
     detect_scanned_table_by_ocr page box pdf_text ocr_text
       (S754_zero sign) min_ocr_chars = Raise ZeroDivisionError).
Proof.
  unfold detect_scanned_table_by_ocr. split.
  - intros e. split.
    + intros Hr.
      destruct (is_zero (float_mul_int ocr_min_ratio 2)) eqn:Hz.
      * rewrite (decide_raises _ _ _ _ _ _ Hz) in Hr. injection Hr as <-.
        now split.
      * destruct (decide_returns page box
                    (PyStr.len (PyStr.strip pdf_text))
                    (PyStr.len (PyStr.strip ocr_text))
                    ocr_min_ratio min_ocr_chars Hz) as [r Hok].
        rewrite Hok in Hr. discriminate Hr.
    + intros [-> Hz]. now apply decide_raises.
  - intros sign. apply decide_raises. now destruct sign.
Qed.

Lemma detect_fails_only_on_zero_threshold_witness :
  let box := (float_of_int 0, float_of_int 0, float_of_int 100, float_of_int 50) in
  detect_scanned_table_by_ocr 0 box "" "abc" (float_of_int 0) 50
  = Raise ZeroDivisionError.
Proof.
  intros box.
  apply (proj2 (proj1 (detect_fails_only_on_zero_threshold 0 box "" "abc"
                         (float_of_int 0) 50) ZeroDivisionError)).
  split; reflexivity.
Defined.

(** X21. A verdict [scanned = true] is returned only when the OCR text has
    at least [min_ocr_chars] characters once stripped, and the quotient of
    that count by [max(1, pdf_chars)], with [pdf_chars] the stripped length
    of the PDF text, is at least [ocr_min_ratio]. *)
Theorem scanned_verdict_is_justified (page : Z)
  (box : float * float * float * float) (pdf_text ocr_text : string)
  (ocr_min_ratio : float) (min_ocr_chars : Z) (r : OCRTableScanResult) :
  detect_scanned_table_by_ocr page box pdf_text ocr_text
    ocr_min_ratio min_ocr_chars = Ok r ->
  scanned r = true ->
  PyStr.len (PyStr.strip ocr_text) >= min_ocr_chars /\
  float_ge
    (SFdiv prec emax
       (float_of_int (PyStr.len (PyStr.strip ocr_text)))
       (float_of_int (Z.max 1 (PyStr.len (PyStr.strip pdf_text)))))
    ocr_min_ratio = true /\
  ocr_text_chars r = PyStr.len (PyStr.strip ocr_text) /\
  pdf_text_chars r = PyStr.len (PyStr.strip pdf_text).
Proof.
  unfold detect_scanned_table_by_ocr. intros Hr Hs.
  destruct (is_zero (float_mul_int ocr_min_ratio 2)) eqn:Hz.
  - rewrite (decide_raises _ _ _ _ _ _ Hz) in Hr. discriminate Hr.
  - rewrite (decide_verdict _ _ _ _ _ _ Hz) in Hr. cbv zeta in Hr.
    injection Hr as <-. cbn [scanned] in Hs.
    apply andb_prop in Hs. destruct Hs as [Hge Hrat].
    repeat split; [now apply Z.geb_ge|exact Hrat].
Qed.

Lemma scanned_verdict_is_justified_witness :
  let box := (float_of_int 0, float_of_int 0, float_of_int 100, float_of_int 50) in
  exists r,
    detect_scanned_table_by_ocr 0 box " ab " "Name  Qty  Price"
      default_ocr_min_ratio 10 = Ok r /\
    PyStr.len (PyStr.strip "Name  Qty  Price") >= 10.
Proof.
  intros box. eexists. split; [reflexivity|].
  refine (proj1 (scanned_verdict_is_justified 0 box " ab " "Name  Qty  Price"
                   default_ocr_min_ratio 10 _ eq_refl _)).
  reflexivity.
Defined.

(** X22. With a threshold that is not a number the detector still returns:
    the verdict is [scanned = false] with confidence 1.0. *)
Theorem nan_threshold_verdict (page : Z)
  (box : float * float * float * float) (pdf_text ocr_text : string)
  (min_ocr_chars : Z) :
  exists r,
    detect_scanned_table_by_ocr page box pdf_text ocr_text S754_nan min_ocr_chars
      = Ok r /\
    scanned r = false /\ confidence r = one.
Proof.
  unfold detect_scanned_table_by_ocr, decide. rewrite ocr_ratio_eq. cbn [bind].
  set (ratio := SFdiv prec emax _ _).
  assert (Hq : float_truediv ratio (float_mul_int S754_nan 2) = Ok S754_nan).
  { unfold float_truediv. change (float_mul_int S754_nan 2) with S754_nan.
    cbn [is_zero]. now destruct ratio. }
  assert (Hge : float_ge ratio S754_nan = false).
  { unfold float_ge. now destruct ratio. }
  rewrite Hq. cbn [bind]. eexists. split; [reflexivity|].
  cbn [scanned confidence]. rewrite Hge. split; [apply andb_false_r|reflexivity].
Qed.

End IsScannedTableMore.
